(** * mol_env: the molecule-editing Markov decision process

    A shallow embedding of [src/mol_env.py]: the module-level enumerator
    [get_valid_actions] with its three edit families ([_atom_addition],
    [_bond_addition], [_bond_removal]) and the [Molecule] environment
    ([initialize], [get_valid_actions], [step]).

    The chemistry backend (RDKit, and the valence table of [mol_utility]) is
    an interface of the program; it is a type class here.  Python exceptions
    are values of [exn]; methods of [Molecule] run in a state-and-exception
    monad, because [step] mutates the object before it can raise. *)

From Stdlib Require Import ZArith QArith List String Ascii Bool Lia.
From stdpp Require Import base decidable option list sorting gmap strings.

Local Open Scope string_scope.
Local Open Scope Z_scope.

(** ** Python values the code relies on *)

Inductive pykey :=
| KInt (n : nat)
| KStr (s : string).

Inductive exn :=
| ValueError (msg : string)
| TypeError (msg : string)
| KeyError (key : pykey)
| IndexError (msg : string)
| AttributeError (msg : string).

Inductive result (A : Type) :=
| Ok (a : A)
| Raise (e : exn).

Arguments Ok {A} a.
Arguments Raise {A} e.

Definition bind {A B} (r : result A) (k : A -> result B) : result B :=
  match r with
  | Ok a => k a
  | Raise e => Raise e
  end.

Declare Scope py_scope.
Delimit Scope py_scope with py.
Notation "x <- c ;; k" := (bind c (fun x => k))
  (at level 100, c at next level, right associativity) : py_scope.

(** [for x in xs: acc = body x acc], stopping at the first exception. *)
Fixpoint for_each {A S} (xs : list A) (body : A -> S -> result S) (acc : S)
  : result S :=
  match xs with
  | [] => Ok acc
  | x :: xs' =>
      match body x acc with
      | Ok acc' => for_each xs' body acc'
      | Raise e => Raise e
      end
  end.

(** [a & b] on two [str]: [str] has no [__and__], the operator raises. *)
Definition str_and (a b : string) : result string :=
  Raise (TypeError "unsupported operand type(s) for &: 'str' and 'str'").

(** [max(xs)] on a list of non-negative integers. *)
Definition py_max (xs : list nat) : result nat :=
  match xs with
  | [] => Raise (ValueError "max() arg is an empty sequence")
  | x :: xs' => Ok (foldr Nat.max x xs')
  end.

(** [d[k]] on a dict with integer keys, kept in insertion order. *)
Fixpoint dict_get {V} (d : list (nat * V)) (k : nat) : result V :=
  match d with
  | [] => Raise (KeyError (KInt k))
  | (k', v) :: d' => if Nat.eqb k' k then Ok v else dict_get d' k
  end.

(** [d[k]] on a dict with string keys. *)
Fixpoint dict_get_str {V} (d : list (string * V)) (k : string) : result V :=
  match d with
  | [] => Raise (KeyError (KStr k))
  | (k', v) :: d' => if String.eqb k' k then Ok v else dict_get_str d' k
  end.

(** [l.index(x)] *)
Fixpoint list_index `{EqDecision A} (x : A) (l : list A) : option nat :=
  match l with
  | [] => None
  | y :: l' => if decide (y = x) then Some O else S <$> list_index x l'
  end.

Definition py_index `{EqDecision A} (x : A) (l : list A) : result nat :=
  match list_index x l with
  | Some i => Ok i
  | None => Raise (ValueError "x is not in list")
  end.

(** [itertools.combinations(l, 2)] *)
Fixpoint combinations2 {A} (l : list A) : list (A * A) :=
  match l with
  | [] => []
  | x :: t => map (pair x) t ++ combinations2 t
  end.

(** [s.split('.')] *)
Fixpoint split_dot (s : string) : list string :=
  match s with
  | EmptyString => [EmptyString]
  | String c rest =>
      if Ascii.eqb c "."%char then EmptyString :: split_dot rest
      else match split_dot rest with
           | [] => [String c EmptyString]
           | hd :: tl => String c hd :: tl
           end
  end.

(** [sorted(parts, key=len)]: a stable sort, as Python's is. *)
Fixpoint insert_by_len (x : string) (l : list string) : list string :=
  match l with
  | [] => [x]
  | y :: l' =>
      if (String.length x <=? String.length y)%nat then x :: y :: l'
      else y :: insert_by_len x l'
  end.

Definition sorted_by_len (l : list string) : list string :=
  foldr insert_by_len [] l.

(** [parts[0]] and [parts[-1]] *)
Definition py_first {A} (l : list A) : result A :=
  match l with
  | [] => Raise (IndexError "list index out of range")
  | x :: _ => Ok x
  end.

Definition py_last {A} (l : list A) : result A :=
  match last l with
  | None => Raise (IndexError "list index out of range")
  | Some x => Ok x
  end.

(** ** The chemistry backend *)

Inductive BondType :=
| UNSPECIFIED | SINGLE | DOUBLE | TRIPLE | QUADRUPLE | AROMATIC | DATIVE | ZERO.

#[global] Instance BondType_eq_dec : EqDecision BondType.
Proof. solve_decision. Defined.

Record Bond := mkBond {
  GetIdx : nat;
  GetBeginAtomIdx : nat;
  GetEndAtomIdx : nat;
  GetBondType : BondType
}.

Definition SetBondType (b : Bond) (t : BondType) : Bond :=
  mkBond (GetIdx b) (GetBeginAtomIdx b) (GetEndAtomIdx b) t.

(** What the program asks of RDKit and of [mol_utility.atom_valences].
    Atoms are named by their index.  [SanitizeMol] with [catchErrors=True]
    returns a flag; [None] stands for a non-zero flag, [Some m] for the
    sanitized molecule. *)
Class Chem := {
  Mol : Type;
  MolFromSmiles : string -> option Mol;
  MolToSmiles : Mol -> string;
  GetAtoms : Mol -> list nat;
  GetNumImplicitHs : Mol -> nat -> nat;
  IsInRing : Mol -> nat -> bool;
  GetBonds : Mol -> list Bond;
  GetBondBetweenAtoms : Mol -> nat -> nat -> option Bond;
  GetShortestPath : Mol -> nat -> nat -> list nat;
  AddAtom : Mol -> string -> Mol * nat;
  AddBond : Mol -> nat -> nat -> BondType -> Mol;
  ReplaceBond : Mol -> nat -> Bond -> Mol;
  RemoveBond : Mol -> nat -> nat -> Mol;
  Kekulize : Mol -> Mol;
  SanitizeMol : Mol -> option Mol;
  atom_valences : string -> nat
}.

(** ** The enumerator *)

Section Enumerator.
Context `{Chem}.

(** The list [bond_orders] of [_bond_addition] and [_bond_removal]. *)
Definition bond_orders : list (option BondType) :=
  [None; Some SINGLE; Some DOUBLE; Some TRIPLE].

(** [bond_orders[i]], used as a bond type. *)
Definition bond_orders_at (i : nat) : result BondType :=
  match nth_error bond_orders i with
  | None => Raise (IndexError "list index out of range")
  | Some None => Raise (TypeError "bond type expected, got None")
  | Some (Some t) => Ok t
  end.

(** The dict [bond_orders] of [_atom_addition]. *)
Definition bond_orders_dict : list (nat * BondType) :=
  [(1%nat, SINGLE); (2%nat, DOUBLE); (3%nat, TRIPLE)].

(** Sanitize, drop the candidate on failure, serialize on success. *)
Definition sanitized_smiles (new_state : Mol) : option string :=
  MolToSmiles <$> SanitizeMol new_state.

Definition add_opt (o : option string) (acc : gset string) : gset string :=
  match o with
  | Some s => {[ s ]} ∪ acc
  | None => acc
  end.

(** Body of the innermost loop of [_atom_addition], lines 89-96. *)
Definition atom_addition_candidate (state : Mol)
    (atom_valences : list (string * nat)) (i : nat) (bt : BondType)
    (atom : nat) (element : string) : result (option string) :=
  (v <- dict_get_str atom_valences element ;;
   if (i <=? v)%nat then
     let '(new_state, idx) := AddAtom state element in
     let new_state := AddBond new_state atom idx bt in
     Ok (sanitized_smiles new_state)
   else Ok None)%py.

Definition _atom_addition (state : Mol) (atom_types : list string)
    (atom_valences : list (string * nat))
    (atoms_with_free_valence : list (nat * list nat))
  : result (gset string) :=
  for_each bond_orders_dict (fun '(i, bt) acc =>
    (atoms <- dict_get atoms_with_free_valence i ;;
     for_each atoms (fun atom acc =>
       for_each atom_types (fun element acc =>
         (c <- atom_addition_candidate state atom_valences i bt atom element ;;
          Ok (add_opt c acc))%py) acc) acc)%py) ∅.

(** The test of lines 137-138. *)
Definition between_rings_forbidden (state : Mol)
    (allow_bonds_between_rings : bool) (atom1 atom2 : nat) : bool :=
  negb allow_bonds_between_rings
  && (IsInRing state atom1 && IsInRing state atom2).

(** The test of lines 141-142. *)
Definition ring_size_forbidden (state : Mol)
    (allowed_ring_sizes : option (gset nat)) (atom1 atom2 : nat) : bool :=
  match allowed_ring_sizes with
  | Some sizes =>
      negb (bool_decide (length (GetShortestPath state atom1 atom2) ∈ sizes))
  | None => false
  end.

(** Body of the loop of [_bond_addition] for one pair, lines 117-151:
    [Ok None] is [continue], [Ok (Some s)] adds [s]. *)
Definition bond_addition_candidate (state : Mol)
    (allowed_ring_sizes : option (gset nat))
    (allow_bonds_between_rings : bool)
    (valence atom1 atom2 : nat) : result (option string) :=
  let bond := GetBondBetweenAtoms state atom1 atom2 in
  let new_state := Kekulize state in
  match bond with
  | Some bond =>
      if negb (bool_decide (Some (GetBondType bond) ∈ bond_orders))
      then Ok None
      else
        (bond_order <- py_index (Some (GetBondType bond)) bond_orders ;;
         let bond_order := (bond_order + valence)%nat in
         if (bond_order <? length bond_orders)%nat then
           (t <- bond_orders_at bond_order ;;
            let idx := GetIdx bond in
            let bond := SetBondType bond t in
            Ok (sanitized_smiles (ReplaceBond new_state idx bond)))
         else Ok None)%py
  | None =>
      if between_rings_forbidden state allow_bonds_between_rings atom1 atom2
      then Ok None
      else if ring_size_forbidden state allowed_ring_sizes atom1 atom2
      then Ok None
      else
        (t <- bond_orders_at valence ;;
         Ok (sanitized_smiles (AddBond new_state atom1 atom2 t)))%py
  end.

Definition _bond_addition (state : Mol)
    (atoms_with_free_valence : list (nat * list nat))
    (allowed_ring_sizes : option (gset nat))
    (allow_bonds_between_rings : bool) : result (gset string) :=
  for_each atoms_with_free_valence (fun '(valence, atoms) acc =>
    for_each (combinations2 atoms) (fun '(atom1, atom2) acc =>
      (c <- bond_addition_candidate state allowed_ring_sizes
              allow_bonds_between_rings valence atom1 atom2 ;;
       Ok (add_opt c acc))%py) acc) ∅.

(** Lines 202-206: what a removed bond contributes, from the
    serialization of the sanitized molecule. *)
Definition largest_fragment (smiles : string) : result (option string) :=
  let parts := sorted_by_len (split_dot smiles) in
  (first <- py_first parts ;;
   if (length parts =? 1)%nat || (String.length first =? 1)%nat
   then (l <- py_last parts ;; Ok (Some l))
   else Ok None)%py.

(** Body of the loop of [_bond_removal] for one bond, lines 172-206. *)
Definition bond_removal_candidate (state : Mol) (valence : nat)
    (bond : Bond) : result (option string) :=
  match GetBondBetweenAtoms state (GetBeginAtomIdx bond) (GetEndAtomIdx bond) with
  | None =>
      Raise (AttributeError "'NoneType' object has no attribute 'GetBondType'")
  | Some bond =>
      if negb (bool_decide (Some (GetBondType bond) ∈ bond_orders))
      then Ok None
      else
        let new_state := Kekulize state in
        (bond_order <- py_index (Some (GetBondType bond)) bond_orders ;;
         let bond_order := Z.of_nat bond_order - Z.of_nat valence in
         if 0 <? bond_order then
           (t <- bond_orders_at (Z.to_nat bond_order) ;;
            let idx := GetIdx bond in
            let bond := SetBondType bond t in
            Ok (sanitized_smiles (ReplaceBond new_state idx bond)))
         else if bond_order =? 0 then
           let atom1 := GetBeginAtomIdx bond in
           let atom2 := GetEndAtomIdx bond in
           match SanitizeMol (RemoveBond new_state atom1 atom2) with
           | None => Ok None
           | Some new_state => largest_fragment (MolToSmiles new_state)
           end
         else Ok None)%py
  end.

Definition _bond_removal (state : Mol) : result (gset string) :=
  for_each [1%nat; 2%nat; 3%nat] (fun valence acc =>
    for_each (GetBonds state) (fun bond acc =>
      (c <- bond_removal_candidate state valence bond ;;
       Ok (add_opt c acc))%py) acc) ∅.

(** [if not state]: [None] and the empty string are falsy. *)
Definition falsy (state : option string) : bool :=
  match state with
  | None => true
  | Some s => String.eqb s EmptyString
  end.

(** The free-valence map built at lines 40-44. *)
Definition free_valence_map (mol : Mol) (max_valence : nat)
  : list (nat * list nat) :=
  map (fun i =>
         (i, filter (fun atom => (i <= GetNumImplicitHs mol atom)%nat)
               (GetAtoms mol)))
      (seq 1 (max_valence - 1)).

Definition get_valid_actions (state : option string)
    (atom_types : gset string)
    (allow_removal allow_no_modification : bool)
    (allowed_ring_sizes : option (gset nat))
    (allow_bonds_between_rings : bool) : result (gset string) :=
  if falsy state then Ok atom_types
  else
    let state := default EmptyString state in
    match MolFromSmiles state with
    | None =>
        (msg <- str_and "Received invalid state: %s" state ;;
         Raise (ValueError msg))%py
    | Some mol =>
        let types := elements atom_types in
        let valences := map (fun t => (t, atom_valences t)) types in
        (max_valence <- py_max (map snd valences) ;;
         let atoms_with_free_valence := free_valence_map mol max_valence in
         added <- _atom_addition mol types valences atoms_with_free_valence ;;
         bonded <- _bond_addition mol atoms_with_free_valence
                     allowed_ring_sizes allow_bonds_between_rings ;;
         let valid_actions := added ∪ bonded in
         valid_actions <-
           (if allow_removal
            then (removed <- _bond_removal mol ;; Ok (valid_actions ∪ removed))
            else Ok valid_actions) ;;
         Ok (if allow_no_modification
             then valid_actions ∪ {[ MolToSmiles mol ]}
             else valid_actions))%py
    end.

End Enumerator.

(** ** The environment *)

(** The named tuple [Result]. *)
Module Result.
Record t := mk {
  state : option string;
  reward : Q;
  terminated : bool
}.
End Result.

Module Molecule.
Section Environment.
Context `{Chem}.

(** A state handed in by the caller: [None], a serialization, or a
    molecule object. *)
Inductive pystate :=
| PyNone
| PyStr (s : string)
| PyMol (m : Mol).

(** The object's attributes. [_valid_actions] starts as the empty list and
    holds sets afterwards; only emptiness and membership are ever asked of
    it. *)
Record t := mk {
  init_mol : option string;
  atom_types : gset string;
  allow_removal : bool;
  allow_no_modification : bool;
  allow_bonds_between_rings : bool;
  allowed_ring_sizes : option (gset nat);
  max_steps : Z;
  _state : option string;
  _valid_actions : gset string;
  _counter : Z;
  _target_fn : option (option string -> bool);
  record_path : bool;
  _path : list (option string);
  _max_bonds : Z;
  _max_new_bonds : list (string * nat)
}.

Definition set_state (v : option string) (self : t) : t :=
  mk (init_mol self) (atom_types self) (allow_removal self)
     (allow_no_modification self) (allow_bonds_between_rings self)
     (allowed_ring_sizes self) (max_steps self) v (_valid_actions self)
     (_counter self) (_target_fn self) (record_path self) (_path self)
     (_max_bonds self) (_max_new_bonds self).

Definition set_valid_actions (v : gset string) (self : t) : t :=
  mk (init_mol self) (atom_types self) (allow_removal self)
     (allow_no_modification self) (allow_bonds_between_rings self)
     (allowed_ring_sizes self) (max_steps self) (_state self) v
     (_counter self) (_target_fn self) (record_path self) (_path self)
     (_max_bonds self) (_max_new_bonds self).

Definition set_counter (v : Z) (self : t) : t :=
  mk (init_mol self) (atom_types self) (allow_removal self)
     (allow_no_modification self) (allow_bonds_between_rings self)
     (allowed_ring_sizes self) (max_steps self) (_state self)
     (_valid_actions self) v (_target_fn self) (record_path self)
     (_path self) (_max_bonds self) (_max_new_bonds self).

Definition set_path (v : list (option string)) (self : t) : t :=
  mk (init_mol self) (atom_types self) (allow_removal self)
     (allow_no_modification self) (allow_bonds_between_rings self)
     (allowed_ring_sizes self) (max_steps self) (_state self)
     (_valid_actions self) (_counter self) (_target_fn self)
     (record_path self) v (_max_bonds self) (_max_new_bonds self).

(** A method call: the object after the call, and what the call returned
    or raised. *)
Definition method (A : Type) : Type := t -> t * result A.

(** [if isinstance(x, Chem.Mol): x = Chem.MolToSmiles(x)] *)
Definition as_smiles (x : pystate) : option string :=
  match x with
  | PyNone => None
  | PyStr s => Some s
  | PyMol m => Some (MolToSmiles m)
  end.

Definition __init__ (atom_types : gset string) (init_mol : pystate)
    (allow_removal allow_no_modification allow_bonds_between_rings : bool)
    (allowed_ring_sizes : option (gset nat)) (max_steps : Z)
    (target_fn : option (option string -> bool)) (record_path : bool) : t :=
  mk (as_smiles init_mol) atom_types allow_removal allow_no_modification
     allow_bonds_between_rings allowed_ring_sizes max_steps
     None ∅ max_steps target_fn record_path [] 4
     (map (fun a => (a, atom_valences a)) (elements atom_types)).

Definition state (self : t) : option string := _state self.

Definition num_steps_taken (self : t) : Z := _counter self.

Definition get_path (self : t) : list (option string) := _path self.

(** Lines 273-282: enumerate for [state], store the set, return a copy. *)
Definition rebuild (state : option string) : method (gset string) :=
  fun self =>
    match get_valid_actions state (atom_types self) (allow_removal self)
            (allow_no_modification self) (allowed_ring_sizes self)
            (allow_bonds_between_rings self) with
    | Ok actions => (set_valid_actions actions self, Ok actions)
    | Raise e => (self, Raise e)
    end.

Definition get_valid_actions (state : pystate) (force_rebuild : bool)
  : method (gset string) :=
  fun self =>
    match state with
    | PyNone =>
        if bool_decide (_valid_actions self ≠ ∅) && negb force_rebuild
        then (self, Ok (_valid_actions self))
        else rebuild (_state self) self
    | _ => rebuild (as_smiles state) self
    end.

Definition _reward (self : t) : Q := 0%Q.

Definition _goal_reached (self : t) : bool :=
  match _target_fn self with
  | None => false
  | Some target_fn => target_fn (_state self)
  end.

Definition initialize : method unit :=
  fun self =>
    let self := set_state (init_mol self) self in
    let self :=
      if record_path self then set_path [_state self] self else self in
    match get_valid_actions PyNone true self with
    | (self, Ok actions) =>
        let self := set_valid_actions actions self in
        (set_counter 0 self, Ok tt)
    | (self, Raise e) => (self, Raise e)
    end.

(** The condition tested at line 294 and again at line 309. *)
Definition is_terminated (self : t) : bool :=
  (max_steps self <=? _counter self) || _goal_reached self.

Definition step (action : string) : method Result.t :=
  fun self =>
    if is_terminated self
    then (self, Raise (ValueError "This episode is terminated."))
    else if negb (bool_decide (action ∈ _valid_actions self))
    then (self, Raise (ValueError "Invalid action."))
    else
      let self := set_state (Some action) self in
      let self :=
        if record_path self
        then set_path (_path self ++ [_state self]) self else self in
      match get_valid_actions PyNone true self with
      | (self, Ok actions) =>
          let self := set_valid_actions actions self in
          let self := set_counter (_counter self + 1) self in
          (self, Ok (Result.mk (_state self) (_reward self)
                       (is_terminated self)))
      | (self, Raise e) => (self, Raise e)
      end.

End Environment.
End Molecule.

(** The two errors of [step], as the specification names them. *)
Definition EpisodeTerminatedError : exn :=
  ValueError "This episode is terminated.".

Definition InvalidActionError : exn := ValueError "Invalid action.".

(** ** A small backend

    An instance of [Chem] for open-chain molecules over C, N, O and S, written
    the way they are parsed: one letter per atom, [=] and [#] for double and
    triple bonds, [.] between fragments.  A fragment is written with its
    atoms in index order, without branch or ring marks, so the serialization
    is the usual one on chains only.  The valence lists are those of the
    periodic table; sodium has one too, but like every symbol of two letters
    it is not accepted by the parser outside brackets.  This is what the
    program is run on in the examples below. *)

Module MiniChem.

Record mol := mkMol {
  atoms : list string;
  bonds : list (nat * nat * BondType)
}.

Definition valence_list (symbol : string) : list nat :=
  if String.eqb symbol "C" then [4%nat]
  else if String.eqb symbol "N" then [3%nat]
  else if String.eqb symbol "O" then [2%nat]
  else if String.eqb symbol "S" then [2%nat; 4%nat; 6%nat]
  else if String.eqb symbol "Na" then [1%nat]
  else [].

(** [max(list(periodic_table.GetValenceList(symbol)))] *)
Definition max_valence (symbol : string) : nat :=
  foldr Nat.max O (valence_list symbol).

Definition order (t : BondType) : nat :=
  match t with
  | SINGLE => 1
  | DOUBLE => 2
  | TRIPLE => 3
  | _ => 0
  end.

Definition symbol_of (m : mol) (a : nat) : string :=
  nth a (atoms m) EmptyString.

Definition touches (a : nat) (b : nat * nat * BondType) : bool :=
  Nat.eqb (fst (fst b)) a || Nat.eqb (snd (fst b)) a.

Definition joins (a1 a2 : nat) (b : nat * nat * BondType) : bool :=
  (Nat.eqb (fst (fst b)) a1 && Nat.eqb (snd (fst b)) a2)
  || (Nat.eqb (fst (fst b)) a2 && Nat.eqb (snd (fst b)) a1).

Definition used (m : mol) (a : nat) : nat :=
  list_sum (map (fun b => order (snd b)) (List.filter (touches a) (bonds m))).

Definition implicit_hs (m : mol) (a : nat) : nat :=
  match List.find (fun v => (used m a <=? v)%nat) (valence_list (symbol_of m a)) with
  | Some v => (v - used m a)%nat
  | None => O
  end.

Definition sanitize (m : mol) : option mol :=
  if forallb (fun a => (used m a <=? max_valence (symbol_of m a))%nat)
             (seq 0 (length (atoms m)))
  then Some m else None.

Definition neighbours (bs : list (nat * nat * BondType)) (a : nat) : list nat :=
  flat_map (fun b =>
              if Nat.eqb (fst (fst b)) a then [snd (fst b)]
              else if Nat.eqb (snd (fst b)) a then [fst (fst b)]
              else []) bs.

Fixpoint reach (fuel : nat) (bs : list (nat * nat * BondType))
    (seen : list nat) : list nat :=
  match fuel with
  | O => seen
  | S fuel' =>
      reach fuel' bs (remove_dups (seen ++ flat_map (neighbours bs) seen))
  end.

Definition component (m : mol) (a : nat) : list nat :=
  List.filter (fun x => bool_decide (x ∈ reach (length (atoms m)) (bonds m) [a]))
              (seq 0 (length (atoms m))).

Definition bond_symbol (t : BondType) : string :=
  match t with
  | DOUBLE => "="
  | TRIPLE => "#"
  | _ => EmptyString
  end.

(** An atom is written after the bond that joins it to an earlier atom. *)
Definition write_atom (m : mol) (a : nat) : string :=
  match List.find (fun b => touches a b
                            && (Nat.ltb (fst (fst b)) a || Nat.ltb (snd (fst b)) a))
                  (bonds m) with
  | Some b => bond_symbol (snd b) +:+ symbol_of m a
  | None => symbol_of m a
  end.

Definition fragments (m : mol) : list string :=
  flat_map (fun a =>
              match component m a with
              | first :: _ =>
                  if Nat.eqb first a
                  then [String.concat EmptyString (map (write_atom m) (component m a))]
                  else []
              | [] => []
              end)
           (seq 0 (length (atoms m))).

Definition to_smiles (m : mol) : string := String.concat "." (fragments m).

Definition add_atom (m : mol) (symbol : string) : mol * nat :=
  (mkMol (atoms m ++ [symbol]) (bonds m), length (atoms m)).

Definition add_bond (m : mol) (a1 a2 : nat) (t : BondType) : mol :=
  mkMol (atoms m) (bonds m ++ [(a1, a2, t)]).

Definition is_element (c : ascii) : bool :=
  Ascii.eqb c "C" || Ascii.eqb c "N" || Ascii.eqb c "O" || Ascii.eqb c "S".

Fixpoint parse (s : string) (m : mol) (prev : option nat) (t : BondType)
  : option mol :=
  match s with
  | EmptyString => Some m
  | String c rest =>
      if Ascii.eqb c "." then parse rest m None SINGLE
      else if Ascii.eqb c "=" then parse rest m prev DOUBLE
      else if Ascii.eqb c "#" then parse rest m prev TRIPLE
      else if is_element c then
        let '(m', idx) := add_atom m (String c EmptyString) in
        let m' := match prev with
                  | Some p => add_bond m' p idx t
                  | None => m'
                  end in
        parse rest m' (Some idx) SINGLE
      else None
  end.

Definition from_smiles (s : string) : option mol :=
  m ← parse s (mkMol [] []) None SINGLE; sanitize m.

Definition get_bonds (m : mol) : list Bond :=
  imap (fun i b => mkBond i (fst (fst b)) (snd (fst b)) (snd b)) (bonds m).

Definition bond_between (m : mol) (a1 a2 : nat) : option Bond :=
  List.find (fun b => joins a1 a2 (GetBeginAtomIdx b, GetEndAtomIdx b, GetBondType b))
            (get_bonds m).

Definition replace_bond (m : mol) (idx : nat) (b : Bond) : mol :=
  mkMol (atoms m)
        (<[idx := (GetBeginAtomIdx b, GetEndAtomIdx b, GetBondType b)]> (bonds m)).

Definition remove_bond (m : mol) (a1 a2 : nat) : mol :=
  mkMol (atoms m) (List.filter (fun b => negb (joins a1 a2 b)) (bonds m)).

(** An atom is in a ring when one of its bonds can be cut without
    disconnecting its two ends. *)
Definition in_ring (m : mol) (a : nat) : bool :=
  existsb (fun b =>
             touches a b
             && bool_decide
                  (snd (fst b) ∈ reach (length (atoms m))
                     (List.filter (fun b' => negb (joins (fst (fst b)) (snd (fst b)) b'))
                                  (bonds m))
                     [fst (fst b)]))
          (bonds m).

(** Breadth-first search over paths, each kept last atom first. *)
Fixpoint search (fuel : nat) (bs : list (nat * nat * BondType)) (target : nat)
    (frontier : list (list nat)) (visited : list nat) : list nat :=
  match fuel with
  | O => []
  | S fuel' =>
      match List.find (fun p => match p with
                                | a :: _ => Nat.eqb a target
                                | [] => false
                                end) frontier with
      | Some p => rev p
      | None =>
          let next :=
            flat_map (fun p =>
                        match p with
                        | a :: _ =>
                            map (fun n => n :: p)
                                (List.filter (fun n => negb (bool_decide (n ∈ visited)))
                                             (neighbours bs a))
                        | [] => []
                        end) frontier in
          search fuel' bs target next
                 (visited ++ flat_map (fun p => take 1 p) next)
      end
  end.

Definition shortest_path (m : mol) (a1 a2 : nat) : list nat :=
  if Nat.eqb a1 a2 then []
  else search (S (length (atoms m))) (bonds m) a2 [[a1]] [a1].

Definition chem : Chem := {|
  Mol := mol;
  MolFromSmiles := from_smiles;
  MolToSmiles := to_smiles;
  GetAtoms := fun m => seq 0 (length (atoms m));
  GetNumImplicitHs := implicit_hs;
  IsInRing := in_ring;
  GetBonds := get_bonds;
  GetBondBetweenAtoms := bond_between;
  GetShortestPath := shortest_path;
  AddAtom := add_atom;
  AddBond := add_bond;
  ReplaceBond := replace_bond;
  RemoveBond := remove_bond;
  Kekulize := fun m => m;
  SanitizeMol := sanitize;
  atom_valences := max_valence
|}.

End MiniChem.

(** ** Vocabulary of the statements *)

(** Fragments are compared by the length of their serialization. *)
Definition len_le (a b : string) : Prop :=
  (String.length a <= String.length b)%nat.

(** [body] adds to the set the strings [contrib x] of the element [x] it is
    run on, and nothing else. *)
Definition collects {A} (body : A -> gset string -> result (gset string))
    (contrib : A -> string -> Prop) : Prop :=
  forall x acc R, body x acc = Ok R ->
    forall s, s ∈ R <-> s ∈ acc \/ contrib x s.

(** ** Runs of the environment *)

(** A call made on an environment other than [initialize]. *)
Inductive call `{Chem} :=
| CallStep (action : string)
| CallGetValidActions (state : Molecule.pystate) (force_rebuild : bool).

(** The object after a call, whether the call returned or raised. *)
Definition perform `{Chem} (c : call) (self : Molecule.t) : Molecule.t :=
  match c with
  | CallStep action => fst (Molecule.step action self)
  | CallGetValidActions state force_rebuild =>
      fst (Molecule.get_valid_actions state force_rebuild self)
  end.

Definition run `{Chem} (calls : list call) (self : Molecule.t) : Molecule.t :=
  foldl (fun self c => perform c self) self calls.

(** [step] on each action in turn, as long as every call returns. *)
Fixpoint steps `{Chem} (actions : list string) (self : Molecule.t)
  : option Molecule.t :=
  match actions with
  | [] => Some self
  | action :: rest =>
      match Molecule.step action self with
      | (self', Ok _) => steps rest self'
      | (_, Raise _) => None
      end
  end.

(** The enumeration the environment asks for a state. *)
Definition enumerate `{Chem} (self : Molecule.t) (state : option string)
  : result (gset string) :=
  get_valid_actions state (Molecule.atom_types self)
    (Molecule.allow_removal self) (Molecule.allow_no_modification self)
    (Molecule.allowed_ring_sizes self) (Molecule.allow_bonds_between_rings self).

(** ** Configurations used in the examples *)

Definition mol_of (smiles : string) : @Mol MiniChem.chem :=
  default (MiniChem.mkMol [] []) (MiniChem.from_smiles smiles).

Section Configurations.
#[local] Existing Instance MiniChem.chem.

(** Atom types C, N and O, no initial molecule, three steps, path
    recorded. *)
Definition env_cno : Molecule.t :=
  Molecule.__init__ {[ "C"; "N"; "O" ]} Molecule.PyNone
    true true true None 3 None true.

Definition env_cno_started : Molecule.t :=
  fst (Molecule.initialize env_cno).

(** The same with no step allowed. *)
Definition env_cno_no_steps : Molecule.t :=
  fst (Molecule.initialize
         (Molecule.__init__ {[ "C"; "N"; "O" ]} Molecule.PyNone
            true true true None 0 None true)).

(** Oxygen as the only atom type, ten steps. *)
Definition env_oxygen : Molecule.t :=
  fst (Molecule.initialize
         (Molecule.__init__ {[ "O" ]} Molecule.PyNone
            true true true None 10 None false)).

(** Carbon and sodium as atom types, ten steps. *)
Definition env_sodium : Molecule.t :=
  fst (Molecule.initialize
         (Molecule.__init__ {[ "C"; "Na" ]} Molecule.PyNone
            true true true None 10 None false)).

(** [env_cno_started] after the steps to "C" and then to "CC". *)
Definition env_cno_after : Molecule.t :=
  default env_cno (steps ["C"; "CC"] env_cno_started).

(** The action space of methane for [env_cno]. *)
Definition actions_of_methane : gset string :=
  match enumerate env_cno_started (Some "C") with
  | Ok actions => actions
  | Raise _ => ∅
  end.

(** Two methane molecules side by side, and the butane chain. *)
Definition two_methanes : Mol := mol_of "C.C".

Definition butane : Mol := mol_of "CCCC".

End Configurations.

(** ** Vocabulary of the further statements *)

(** The fragment delimiter occurs in [s]. *)
Fixpoint contains_dot (s : string) : bool :=
  match s with
  | EmptyString => false
  | String c rest => Ascii.eqb c "."%char || contains_dot rest
  end.

(** [max(atom_valences.values())] at line 41, for the dict of lines 35-38. *)
Definition max_valence_of `{Chem} (atom_types : gset string) : result nat :=
  py_max (map atom_valences (elements atom_types)).

(** Every bond that [GetBonds] lists is found between its two end atoms. *)
Definition bonds_found `{Chem} (state : Mol) : Prop :=
  forall bond, bond ∈ GetBonds state ->
    GetBondBetweenAtoms state (GetBeginAtomIdx bond) (GetEndAtomIdx bond) <> None.

(** A call made on an environment, [initialize] included. *)
Inductive any_call `{Chem} :=
| CallInitialize
| CallOther (c : call).

Definition perform_any `{Chem} (c : any_call) (self : Molecule.t) : Molecule.t :=
  match c with
  | CallInitialize => fst (Molecule.initialize self)
  | CallOther c => perform c self
  end.

Definition run_any `{Chem} (calls : list any_call) (self : Molecule.t)
  : Molecule.t :=
  foldl (fun self c => perform_any c self) self calls.

(** The attributes set by the constructor's arguments. *)
Definition configuration (self : Molecule.t) :=
  (Molecule.init_mol self, Molecule.atom_types self,
   Molecule.allow_removal self, Molecule.allow_no_modification self,
   Molecule.allow_bonds_between_rings self, Molecule.allowed_ring_sizes self,
   Molecule.max_steps self, Molecule._target_fn self,
   Molecule.record_path self, Molecule._max_bonds self,
   Molecule._max_new_bonds self).

Section FurtherConfigurations.
#[local] Existing Instance MiniChem.chem.

Definition ethane : Mol := mol_of "CC".

Definition ethene : Mol := mol_of "C=C".

Definition water : Mol := mol_of "O".

(** [env_cno] without path recording, after [initialize]. *)
Definition env_cno_unrecorded : Molecule.t :=
  fst (Molecule.initialize
         (Molecule.__init__ {[ "C"; "N"; "O" ]} Molecule.PyNone
            true true true None 3 None false)).

(** An environment whose initial molecule does not parse. *)
Definition env_unparsable : Molecule.t :=
  Molecule.__init__ {[ "C"; "N"; "O" ]} (Molecule.PyStr "((")
    true true true None 3 None true.

(** What atom addition gives for methane when C, N and O are offered. *)
Definition atom_additions_of_methane : gset string :=
  match _atom_addition (mol_of "C") ["C"; "N"; "O"]
          (map (fun t => (t, atom_valences t)) ["C"; "N"; "O"])
          (free_valence_map (mol_of "C") 4) with
  | Ok actions => actions
  | Raise _ => ∅
  end.

(** The action space of ethane for [env_cno]. *)
Definition actions_of_ethane : gset string :=
  match enumerate env_cno_started (Some "CC") with
  | Ok actions => actions
  | Raise _ => ∅
  end.

End FurtherConfigurations.

(** * Properties *)

(** ** Splitting and sorting fragments *)

Lemma split_dot_nonempty (s : string) : split_dot s <> [].
Proof.
  destruct s as [|c rest]; simpl; [discriminate|].
  destruct (Ascii.eqb c "."); [discriminate|].
  destruct (split_dot rest); discriminate.
Qed.

Lemma insert_by_len_perm (x : string) (l : list string) :
  insert_by_len x l ≡ₚ x :: l.
Proof.
  induction l as [|y l IH]; simpl; [reflexivity|].
  destruct (String.length x <=? String.length y)%nat; [reflexivity|].
  rewrite IH. apply Permutation_swap.
Qed.

Lemma sorted_by_len_perm (l : list string) : sorted_by_len l ≡ₚ l.
Proof.
  induction l as [|x l IH]; simpl; [reflexivity|].
  rewrite insert_by_len_perm. by rewrite IH.
Qed.

Lemma insert_by_len_sorted (x : string) (l : list string) :
  StronglySorted len_le l -> StronglySorted len_le (insert_by_len x l).
Proof.
  induction l as [|y l IH]; simpl; intros Hs.
  - repeat constructor.
  - apply StronglySorted_cons in Hs as [Hy Hl].
    destruct (String.length x <=? String.length y)%nat eqn:Hxy.
    + apply Nat.leb_le in Hxy.
      apply StronglySorted_cons. split.
      * constructor; [exact Hxy|].
        eapply Forall_impl; [exact Hy|]. unfold len_le. intros; lia.
      * apply StronglySorted_cons. by split.
    + apply Nat.leb_gt in Hxy.
      apply StronglySorted_cons. split; [|by apply IH].
      rewrite insert_by_len_perm. constructor; [|exact Hy].
      unfold len_le. lia.
Qed.

Lemma sorted_by_len_sorted (l : list string) :
  StronglySorted len_le (sorted_by_len l).
Proof.
  induction l as [|x l IH]; simpl; [constructor|].
  by apply insert_by_len_sorted.
Qed.

Lemma sorted_first_least (l : list string) (x : string) :
  StronglySorted len_le l -> py_first l = Ok x ->
  forall y, y ∈ l -> len_le x y.
Proof.
  destruct l as [|z l]; simpl; [discriminate|].
  intros Hs [= ->] y Hy. apply StronglySorted_cons in Hs as [Hx _].
  apply elem_of_cons in Hy as [->|Hy]; [unfold len_le; lia|].
  rewrite Forall_forall in Hx. by apply Hx.
Qed.

Lemma sorted_last_greatest (l : list string) (x : string) :
  StronglySorted len_le l -> last l = Some x ->
  forall y, y ∈ l -> len_le y x.
Proof.
  intros Hs Hlast y Hy.
  destruct (last_Some l x) as [[l' ->] _]; [exact Hlast|].
  apply elem_of_app in Hy as [Hy|Hy].
  - eapply StronglySorted_app_1_elem_of; [exact Hs|exact Hy|]. by left.
  - apply list_elem_of_singleton in Hy as ->. unfold len_le. lia.
Qed.

Lemma last_elem {A} (l : list A) (x : A) : last l = Some x -> x ∈ l.
Proof.
  intros Hl. destruct (last_Some l x) as [[l' ->] _]; [exact Hl|].
  apply elem_of_app. right. by left.
Qed.

(** ** Loops that collect into a set *)

Lemma for_each_collects {A} (body : A -> gset string -> result (gset string))
    (contrib : A -> string -> Prop) (xs : list A) :
  collects body contrib ->
  forall acc R, for_each xs body acc = Ok R ->
    forall s, s ∈ R <-> s ∈ acc \/ exists x, x ∈ xs /\ contrib x s.
Proof.
  intros Hb. induction xs as [|x xs IH]; simpl; intros acc R HR s.
  - injection HR as <-. split; [by left|].
    intros [Hs|(x & Hx & _)]; [exact Hs|]. by apply elem_of_nil in Hx.
  - destruct (body x acc) as [acc'|e] eqn:Hx; [|discriminate].
    rewrite (IH _ _ HR s), (Hb _ _ _ Hx s). split.
    + intros [[Hs|Hs]|(y & Hy & Hs)]; [by left| |].
      * right. exists x. split; [by left|exact Hs].
      * right. exists y. split; [by right|exact Hs].
    + intros [Hs|(y & Hy & Hs)]; [by left; left|].
      apply elem_of_cons in Hy as [->|Hy]; [by left; right|].
      right. by exists y.
Qed.

Lemma add_opt_collects {A} (f : A -> result (option string)) :
  collects (fun x acc => (c <- f x ;; Ok (add_opt c acc))%py)
           (fun x s => f x = Ok (Some s)).
Proof.
  intros x acc R. unfold bind. destruct (f x) as [[s'|]|e]; simpl; try discriminate.
  - intros [= <-] s. rewrite elem_of_union, elem_of_singleton. split.
    + intros [->|Hs]; [by right|by left].
    + intros [Hs|[= ->]]; [by right|by left].
  - intros [= <-] s. split; [by left|]. by intros [Hs|[=]].
Qed.

Lemma list_index_elem `{EqDecision A} (x : A) (l : list A) (i : nat) :
  list_index x l = Some i -> x ∈ l.
Proof.
  revert i. induction l as [|y l IH]; simpl; intros i; [discriminate|].
  destruct (decide (y = x)) as [->|_]; [by left|].
  destruct (list_index x l) as [j|]; [|discriminate].
  intros _. right. by eapply IH.
Qed.

Section EnumeratorFacts.
Context `{Chem}.

Lemma largest_fragment_spec (smiles : string) :
  exists smallest largest,
    py_first (sorted_by_len (split_dot smiles)) = Ok smallest /\
    last (sorted_by_len (split_dot smiles)) = Some largest /\
    smallest ∈ split_dot smiles /\
    largest ∈ split_dot smiles /\
    (forall f, f ∈ split_dot smiles -> len_le smallest f /\ len_le f largest) /\
    largest_fragment smiles =
      Ok (if (length (split_dot smiles) =? 1)%nat
             || (String.length smallest =? 1)%nat
          then Some largest else None).
Proof.
  pose proof (sorted_by_len_perm (split_dot smiles)) as Hperm.
  pose proof (sorted_by_len_sorted (split_dot smiles)) as Hsorted.
  pose proof (split_dot_nonempty smiles) as Hne.
  unfold largest_fragment.
  rewrite (Permutation_length Hperm).
  destruct (sorted_by_len (split_dot smiles)) as [|x l] eqn:Hparts.
  { symmetry in Hperm. apply Permutation_nil_r in Hperm. contradiction. }
  destruct (last (x :: l)) as [y|] eqn:Hlast.
  2:{ apply last_None in Hlast. discriminate. }
  exists x, y. simpl py_first. unfold py_last. rewrite Hlast. simpl.
  repeat split; try done.
  - rewrite <- Hperm. by left.
  - rewrite <- Hperm. by apply last_elem.
  - apply (sorted_first_least (x :: l)); [done..|]. by rewrite Hperm.
  - apply (sorted_last_greatest (x :: l)); [done..|]. by rewrite Hperm.
  - by destruct ((length (split_dot smiles) =? 1)%nat
                 || (String.length x =? 1)%nat).
Qed.

Lemma bond_removal_members (state : Mol) (R : gset string) :
  _bond_removal state = Ok R ->
  forall s, s ∈ R <->
    exists valence bond,
      valence ∈ [1%nat; 2%nat; 3%nat] /\ bond ∈ GetBonds state /\
      bond_removal_candidate state valence bond = Ok (Some s).
Proof.
  intros HR s. unfold _bond_removal in HR.
  eapply (for_each_collects _
            (fun valence s => exists bond, bond ∈ GetBonds state /\
               bond_removal_candidate state valence bond = Ok (Some s)))
    in HR.
  - rewrite HR. split.
    + intros [Hs|(v & Hv & b & Hb & Hc)]; [by apply elem_of_empty in Hs|].
      by exists v, b.
    + intros (v & b & Hv & Hb & Hc). right. exists v. split; [done|]. by exists b.
  - intros valence acc R' HR'.
    apply (for_each_collects _ _ _ (add_opt_collects _) _ _ HR').
Qed.

Lemma bond_addition_members (state : Mol) awfv sizes allow (R : gset string) :
  _bond_addition state awfv sizes allow = Ok R ->
  forall s, s ∈ R <->
    exists valence atoms atom1 atom2,
      (valence, atoms) ∈ awfv /\ (atom1, atom2) ∈ combinations2 atoms /\
      bond_addition_candidate state sizes allow valence atom1 atom2 = Ok (Some s).
Proof.
  intros HR s. unfold _bond_addition in HR.
  eapply (for_each_collects _
            (fun va s => exists atom1 atom2,
               (atom1, atom2) ∈ combinations2 (snd va) /\
               bond_addition_candidate state sizes allow (fst va) atom1 atom2
               = Ok (Some s)))
    in HR.
  - rewrite HR. split.
    + intros [Hs|([v atoms] & Hv & a1 & a2 & Hp & Hc)];
        [by apply elem_of_empty in Hs|].
      by exists v, atoms, a1, a2.
    + intros (v & atoms & a1 & a2 & Hv & Hp & Hc). right.
      exists (v, atoms). split; [done|]. by exists a1, a2.
  - intros [valence atoms] acc R' HR'.
    pose proof (for_each_collects
      (fun '(atom1, atom2) acc =>
         (c <- bond_addition_candidate state sizes allow valence atom1 atom2 ;;
          Ok (add_opt c acc))%py)
      (fun p s => bond_addition_candidate state sizes allow valence p.1 p.2
                  = Ok (Some s))
      (combinations2 atoms)) as Hin.
    intros s'. rewrite (Hin ltac:(intros [a1 a2]; apply (add_opt_collects
      (fun p => bond_addition_candidate state sizes allow valence p.1 p.2)
      (a1, a2))) _ _ HR' s').
    split.
    + intros [Hs|([a1 a2] & Hp & Hc)]; [by left|]. right. by exists a1, a2.
    + intros [Hs|(a1 & a2 & Hp & Hc)]; [by left|]. right. by exists (a1, a2).
Qed.

End EnumeratorFacts.

(** ** Bond removal *)

Section BondRemoval.
Context `{Chem}.

(** C1. When the order of an existing bond minus the chosen amount is 0,
    the bond is removed from the kekulized molecule and the result is
    sanitized; a failed sanitization contributes nothing.  Otherwise the
    serialization is split on the dot and sorted by length: the candidate
    contributes at most one string, the last (longest) fragment, and it
    does so exactly when there is one fragment or the shortest fragment has
    length one.  Two fragments that are both longer than one character
    contribute nothing.  What the candidate contributes is in the set that
    [_bond_removal] returns. *)
Theorem bond_removal_keeps_largest_fragment
    (state : Mol) (valence : nat) (b bond : Bond) :
  GetBondBetweenAtoms state (GetBeginAtomIdx b) (GetEndAtomIdx b) = Some bond ->
  list_index (Some (GetBondType bond)) bond_orders = Some valence ->
  let removed :=
    RemoveBond (Kekulize state) (GetBeginAtomIdx bond) (GetEndAtomIdx bond) in
  (SanitizeMol removed = None ->
     bond_removal_candidate state valence b = Ok None) /\
  (forall new_state, SanitizeMol removed = Some new_state ->
     let fragments := split_dot (MolToSmiles new_state) in
     exists smallest largest,
       smallest ∈ fragments /\ largest ∈ fragments /\
       last (sorted_by_len fragments) = Some largest /\
       (forall f, f ∈ fragments -> len_le smallest f /\ len_le f largest) /\
       bond_removal_candidate state valence b =
         Ok (if (length fragments =? 1)%nat
                || (String.length smallest =? 1)%nat
             then Some largest else None) /\
       (forall f1 f2, fragments = [f1; f2] ->
          (1 < String.length f1)%nat -> (1 < String.length f2)%nat ->
          bond_removal_candidate state valence b = Ok None)) /\
  (forall R s, _bond_removal state = Ok R -> b ∈ GetBonds state ->
     bond_removal_candidate state valence b = Ok (Some s) -> s ∈ R).
Proof.
  intros Hbond Hidx removed.
  assert (Hval : valence ∈ [1%nat; 2%nat; 3%nat]).
  { destruct (GetBondType bond); vm_compute in Hidx; try discriminate;
      injection Hidx as <-; set_solver. }
  assert (Hcand : bond_removal_candidate state valence b =
            match SanitizeMol removed with
            | None => Ok None
            | Some new_state => largest_fragment (MolToSmiles new_state)
            end).
  { unfold bond_removal_candidate. rewrite Hbond.
    rewrite (bool_decide_eq_true_2 _ (list_index_elem _ _ _ Hidx)). simpl negb.
    cbv iota. unfold py_index. rewrite Hidx. simpl bind.
    replace (Z.of_nat valence - Z.of_nat valence) with 0 by lia.
    reflexivity. }
  split; [|split].
  - intros Hs. by rewrite Hcand, Hs.
  - intros new_state Hs fragments. rewrite Hcand, Hs.
    destruct (largest_fragment_spec (MolToSmiles new_state))
      as (smallest & largest & Hfirst & Hlast & Hin1 & Hin2 & Hbounds & Hres).
    exists smallest, largest. repeat split; try done.
    + by apply Hbounds.
    + by apply Hbounds.
    + intros f1 f2 Hfr Hf1 Hf2. rewrite Hres. fold fragments.
      rewrite Hfr. simpl length.
      fold fragments in Hin1. rewrite Hfr in Hin1.
      assert (1 < String.length smallest)%nat as Hlen.
      { apply elem_of_cons in Hin1 as [->|Hin1]; [done|].
        by apply list_elem_of_singleton in Hin1 as ->. }
      assert ((String.length smallest =? 1)%nat = false) as ->
        by (apply Nat.eqb_neq; lia).
      reflexivity.
  - intros R s HR Hb Hc. apply (bond_removal_members _ _ HR).
    by exists valence, b.
Qed.

End BondRemoval.

(** ** Bond addition *)

Section BondAddition.
Context `{Chem}.

Lemma bond_orders_at_ok (valence : nat) (t : BondType) :
  bond_orders_at valence = Ok t ->
  (1 <= valence <= 3)%nat /\ list_index (Some t) bond_orders = Some valence.
Proof.
  intros Ht.
  destruct valence as [|[|[|[|v]]]]; unfold bond_orders_at in Ht; simpl in Ht;
    try discriminate; try (by destruct v);
    injection Ht as <-; (split; [lia|reflexivity]).
Qed.

Lemma bond_orders_at_defined (valence : nat) :
  (1 <= valence <= 3)%nat -> exists t, bond_orders_at valence = Ok t.
Proof.
  intros Hv. destruct valence as [|[|[|[|v]]]]; try lia; vm_compute; eauto.
Qed.

(** C3, for the bond orders that exist.  For a pair of atoms with no bond
    between them: the pair is skipped when bonds between rings are not
    allowed and both atoms are ring members, and skipped when ring sizes are
    restricted and the length of the shortest path between the atoms is not
    an allowed size, whatever the level [valence]; otherwise, for a level
    from 1 to 3, the bond of that order is added to the kekulized molecule
    and its serialization is kept if it sanitizes.  Hence every string of
    the set returned by [_bond_addition] comes from a pair of one level of
    the free-valence map, and when that pair had no bond it is not a pair
    of ring atoms under the first restriction and its path length is an
    allowed ring size under the second. *)
Theorem bond_addition_ring_constraints
    (state : Mol) (allowed_ring_sizes : option (gset nat))
    (allow_bonds_between_rings : bool) (valence atom1 atom2 : nat) :
  GetBondBetweenAtoms state atom1 atom2 = None ->
  let candidate v a1 a2 :=
    bond_addition_candidate state allowed_ring_sizes
      allow_bonds_between_rings v a1 a2 in
  let path a1 a2 := length (GetShortestPath state a1 a2) in
  (allow_bonds_between_rings = false ->
     IsInRing state atom1 = true -> IsInRing state atom2 = true ->
     candidate valence atom1 atom2 = Ok None) /\
  (forall sizes, allowed_ring_sizes = Some sizes -> path atom1 atom2 ∉ sizes ->
     candidate valence atom1 atom2 = Ok None) /\
  (between_rings_forbidden state allow_bonds_between_rings atom1 atom2 = false ->
   ring_size_forbidden state allowed_ring_sizes atom1 atom2 = false ->
   (1 <= valence <= 3)%nat ->
   exists t,
     list_index (Some t) bond_orders = Some valence /\
     candidate valence atom1 atom2 =
       Ok (sanitized_smiles (AddBond (Kekulize state) atom1 atom2 t))) /\
  (forall awfv R,
     _bond_addition state awfv allowed_ring_sizes allow_bonds_between_rings
     = Ok R ->
     (forall atoms s,
        (valence, atoms) ∈ awfv -> (atom1, atom2) ∈ combinations2 atoms ->
        candidate valence atom1 atom2 = Ok (Some s) -> s ∈ R) /\
     (forall s, s ∈ R ->
        exists v atoms a1 a2,
          (v, atoms) ∈ awfv /\ (a1, a2) ∈ combinations2 atoms /\
          candidate v a1 a2 = Ok (Some s) /\
          (GetBondBetweenAtoms state a1 a2 = None ->
             (1 <= v <= 3)%nat /\
             (allow_bonds_between_rings = false ->
                IsInRing state a1 && IsInRing state a2 = false) /\
             (forall sizes, allowed_ring_sizes = Some sizes ->
                path a1 a2 ∈ sizes)))).
Proof.
  intros Hnone candidate path.
  assert (Hnew : forall v a1 a2, GetBondBetweenAtoms state a1 a2 = None ->
            candidate v a1 a2 =
              if between_rings_forbidden state allow_bonds_between_rings a1 a2
              then Ok None
              else if ring_size_forbidden state allowed_ring_sizes a1 a2
              then Ok None
              else (t <- bond_orders_at v ;;
                    Ok (sanitized_smiles (AddBond (Kekulize state) a1 a2 t)))%py).
  { intros v a1 a2 Hn. unfold candidate, bond_addition_candidate.
    by rewrite Hn. }
  split; [|split; [|split; [|intros awfv R HR; split]]].
  - intros -> Hr1 Hr2. rewrite (Hnew _ _ _ Hnone).
    unfold between_rings_forbidden. by rewrite Hr1, Hr2.
  - intros sizes -> Hpath. rewrite (Hnew _ _ _ Hnone).
    destruct (between_rings_forbidden _ _ _ _); [done|].
    unfold ring_size_forbidden. fold (path atom1 atom2).
    by rewrite (bool_decide_eq_false_2 _ Hpath).
  - intros Hrings Hsizes Hv. rewrite (Hnew _ _ _ Hnone), Hrings, Hsizes.
    destruct (bond_orders_at_defined valence Hv) as [t Ht].
    exists t. rewrite Ht. split; [|done].
    by apply (bond_orders_at_ok valence).
  - intros atoms s Hlevel Hpair Hc.
    apply (bond_addition_members _ _ _ _ _ HR). by exists valence, atoms, atom1, atom2.
  - intros s Hs.
    apply (bond_addition_members _ _ _ _ _ HR) in Hs
      as (v & atoms & a1 & a2 & Hlevel & Hpair & Hc).
    exists v, atoms, a1, a2. split; [done|]. split; [done|]. split; [done|].
    intros Hn. fold (candidate v a1 a2) in Hc. rewrite (Hnew _ _ _ Hn) in Hc.
    destruct (between_rings_forbidden state allow_bonds_between_rings a1 a2)
      eqn:Hrings; [discriminate|].
    destruct (ring_size_forbidden state allowed_ring_sizes a1 a2)
      eqn:Hsizes; [discriminate|].
    destruct (bond_orders_at v) as [t|e] eqn:Ht; [|discriminate].
    apply bond_orders_at_ok in Ht as [Hv _].
    split; [exact Hv|]. split.
    + intros ->. exact Hrings.
    + intros sizes ->. unfold ring_size_forbidden in Hsizes.
      apply negb_false_iff, bool_decide_eq_true in Hsizes. exact Hsizes.
Qed.

End BondAddition.

(** ** The environment *)

Section EnvironmentFacts.
Context `{Chem}.

Lemma rebuild_spec (self : Molecule.t) (state : option string) :
  Molecule.rebuild state self =
    match enumerate self state with
    | Ok actions => (Molecule.set_valid_actions actions self, Ok actions)
    | Raise e => (self, Raise e)
    end.
Proof. reflexivity. Qed.

Lemma get_valid_actions_forced (self : Molecule.t) :
  Molecule.get_valid_actions Molecule.PyNone true self =
    Molecule.rebuild (Molecule._state self) self.
Proof.
  unfold Molecule.get_valid_actions. by rewrite andb_false_r.
Qed.

Lemma terminated_after_rebuild (self : Molecule.t) state :
  Molecule.is_terminated (Molecule.rebuild state self).1
  = Molecule.is_terminated self.
Proof.
  rewrite rebuild_spec. by destruct (enumerate self state).
Qed.

Lemma step_terminated (self : Molecule.t) (action : string) :
  Molecule.is_terminated self = true ->
  Molecule.step action self = (self, Raise EpisodeTerminatedError).
Proof. intros Ht. unfold Molecule.step. by rewrite Ht. Qed.

Lemma perform_keeps_terminated (self : Molecule.t) (c : call) :
  Molecule.is_terminated self = true ->
  Molecule.is_terminated (perform c self) = true.
Proof.
  intros Ht. destruct c as [action|state force]; simpl.
  - by rewrite step_terminated.
  - unfold Molecule.get_valid_actions.
    destruct state; rewrite ?terminated_after_rebuild; try done.
    destruct (_ && _); [done|]. by rewrite terminated_after_rebuild.
Qed.

Lemma run_keeps_terminated (calls : list call) (self : Molecule.t) :
  Molecule.is_terminated self = true ->
  Molecule.is_terminated (run calls self) = true.
Proof.
  revert self. induction calls as [|c calls IH]; intros self Ht; [done|].
  apply IH. by apply perform_keeps_terminated.
Qed.

Lemma step_refused (self : Molecule.t) (action : string) :
  Molecule.is_terminated self = false ->
  action ∉ Molecule._valid_actions self ->
  Molecule.step action self = (self, Raise InvalidActionError).
Proof.
  intros Ht Hout. unfold Molecule.step.
  by rewrite Ht, (bool_decide_eq_false_2 _ Hout).
Qed.

(** What [step] does once both guards are passed. *)
Lemma step_accepted (self : Molecule.t) (action : string) :
  Molecule.is_terminated self = false ->
  action ∈ Molecule._valid_actions self ->
  let committed :=
    let self := Molecule.set_state (Some action) self in
    if Molecule.record_path self
    then Molecule.set_path (Molecule._path self ++ [Some action]) self
    else self in
  Molecule.step action self =
    match enumerate committed (Some action) with
    | Ok actions =>
        let self :=
          Molecule.set_counter (Molecule._counter committed + 1)
            (Molecule.set_valid_actions actions committed) in
        (self, Ok (Result.mk (Some action) 0%Q (Molecule.is_terminated self)))
    | Raise e => (committed, Raise e)
    end.
Proof.
  intros Ht Hin committed. unfold Molecule.step.
  rewrite Ht, (bool_decide_eq_true_2 _ Hin). simpl negb. cbv iota.
  rewrite get_valid_actions_forced, rebuild_spec. subst committed.
  destruct self as [? ? ? ? ? ? ? ? ? ? ? recording ? ? ?]. simpl.
  destruct recording; simpl;
    match goal with |- context [enumerate ?e ?s] =>
      destruct (enumerate e s) end; reflexivity.
Qed.

End EnvironmentFacts.

(** ** Claims about the enumerator's entry point *)

Section EntryPoint.
Context `{Chem}.

(** C2. For a non-empty state that the backend cannot parse, the argument
    of the [ValueError] at line 33 is built with [&] on two strings, so the
    call raises the [TypeError] of that operator and never a [ValueError].
    The exception leaves [get_valid_actions]: nothing catches it. *)
Theorem get_valid_actions_unparsable_state
    (state : string) (atom_types : gset string)
    (allow_removal allow_no_modification : bool)
    (allowed_ring_sizes : option (gset nat))
    (allow_bonds_between_rings : bool) :
  state <> EmptyString ->
  MolFromSmiles state = None ->
  get_valid_actions (Some state) atom_types allow_removal
    allow_no_modification allowed_ring_sizes allow_bonds_between_rings
  = Raise (TypeError "unsupported operand type(s) for &: 'str' and 'str'") /\
  forall msg,
    get_valid_actions (Some state) atom_types allow_removal
      allow_no_modification allowed_ring_sizes allow_bonds_between_rings
    <> Raise (ValueError msg).
Proof.
  intros Hne Hparse.
  assert (get_valid_actions (Some state) atom_types allow_removal
            allow_no_modification allowed_ring_sizes allow_bonds_between_rings
          = Raise (TypeError "unsupported operand type(s) for &: 'str' and 'str'"))
    as ->.
  { unfold get_valid_actions, falsy.
    apply String.eqb_neq in Hne as ->. simpl default. by rewrite Hparse. }
  split; [reflexivity|]. intros msg. discriminate.
Qed.

(** C7. For an absent or empty state the enumerator returns the atom
    types, without parsing; an environment built with no initial molecule
    is, after [initialize], at step 0 with the atom types as its action
    space, and [get_valid_actions()] returns them. *)
Theorem empty_state_yields_atom_types
    (atom_types : gset string)
    (allow_removal allow_no_modification allow_bonds_between_rings : bool)
    (allowed_ring_sizes : option (gset nat)) (max_steps : Z)
    (target_fn : option (option string -> bool)) (record_path : bool) :
  get_valid_actions None atom_types allow_removal allow_no_modification
    allowed_ring_sizes allow_bonds_between_rings = Ok atom_types /\
  get_valid_actions (Some EmptyString) atom_types allow_removal allow_no_modification
    allowed_ring_sizes allow_bonds_between_rings = Ok atom_types /\
  exists self,
    Molecule.initialize
      (Molecule.__init__ atom_types Molecule.PyNone allow_removal
         allow_no_modification allow_bonds_between_rings allowed_ring_sizes
         max_steps target_fn record_path) = (self, Ok tt) /\
    Molecule.num_steps_taken self = 0 /\
    Molecule.state self = None /\
    Molecule._valid_actions self = atom_types /\
    Molecule.get_valid_actions Molecule.PyNone false self
    = (self, Ok atom_types).
Proof.
  split; [reflexivity|]. split; [reflexivity|].
  eexists. split; [|split; [|split; [|split]]].
  - unfold Molecule.initialize. rewrite get_valid_actions_forced.
    unfold Molecule.rebuild. destruct record_path; reflexivity.
  - by destruct record_path.
  - by destruct record_path.
  - by destruct record_path.
  - unfold Molecule.get_valid_actions.
    destruct record_path; simpl;
      (destruct (bool_decide (atom_types ≠ ∅)); [reflexivity|]);
      reflexivity.
Qed.

End EntryPoint.

(** ** Claims about [step] *)

Section Episodes.
Context `{Chem}.

(** C4. In an episode that is not terminated, an action that is not in
    the cached action space makes [step] raise the invalid-action error,
    and the object is the same after the call: state, counter, cache and
    path are untouched. *)
Theorem step_invalid_action (self : Molecule.t) (action : string) :
  Molecule.is_terminated self = false ->
  action ∉ Molecule._valid_actions self ->
  Molecule.step action self = (self, Raise InvalidActionError).
Proof.
  intros Hactive Hout. unfold Molecule.step.
  rewrite Hactive.
  destruct (bool_decide (action ∈ Molecule._valid_actions self)) eqn:Hmember.
  - apply bool_decide_eq_true in Hmember. contradiction.
  - reflexivity.
Qed.

(** C5. Once the counter has reached [max_steps] or the goal holds on the
    current state, [step] raises the episode-terminated error before it
    looks at the action, and leaves the object as it was; this still holds
    after any further calls of [step] and [get_valid_actions], which keep
    the episode terminated. *)
Theorem termination_is_sticky
    (self : Molecule.t) (calls : list call) (action : string) :
  Molecule.max_steps self <= Molecule._counter self
  \/ Molecule._goal_reached self = true ->
  Molecule.step action self = (self, Raise EpisodeTerminatedError) /\
  Molecule.is_terminated (run calls self) = true /\
  Molecule.step action (run calls self)
  = (run calls self, Raise EpisodeTerminatedError) /\
  (forall actions, run (map CallStep actions) self = self).
Proof.
  intros Hterm.
  assert (Ht : Molecule.is_terminated self = true).
  { unfold Molecule.is_terminated. destruct Hterm as [Hc| ->].
    - apply Z.leb_le in Hc as ->. reflexivity.
    - apply orb_true_r. }
  split; [by apply step_terminated|].
  split; [by apply run_keeps_terminated|].
  split; [by apply step_terminated, run_keeps_terminated|].
  intros actions. induction actions as [|a actions IH]; [reflexivity|].
  simpl. by rewrite step_terminated.
Qed.

(** C9. A freshly constructed environment has its counter at [max_steps]:
    [num_steps_taken] is [max_steps], and [step] raises the
    episode-terminated error for every action, leaving the object as it
    was. *)
Theorem fresh_environment_is_terminated
    (atom_types : gset string) (init_mol : Molecule.pystate)
    (allow_removal allow_no_modification allow_bonds_between_rings : bool)
    (allowed_ring_sizes : option (gset nat)) (max_steps : Z)
    (target_fn : option (option string -> bool)) (record_path : bool)
    (action : string) :
  let self :=
    Molecule.__init__ atom_types init_mol allow_removal
      allow_no_modification allow_bonds_between_rings allowed_ring_sizes
      max_steps target_fn record_path in
  Molecule.num_steps_taken self = max_steps /\
  Molecule.num_steps_taken self = Molecule.max_steps self /\
  Molecule.is_terminated self = true /\
  Molecule.step action self = (self, Raise EpisodeTerminatedError).
Proof.
  intros self.
  assert (Ht : Molecule.is_terminated self = true).
  { unfold Molecule.is_terminated, self. simpl. by rewrite Z.leb_refl. }
  repeat split; try done. by apply step_terminated.
Qed.

End Episodes.

Section Transitions.
Context `{Chem}.

Lemma step_returns (self self' : Molecule.t) (action : string) (r : Result.t) :
  Molecule.step action self = (self', Ok r) ->
  Molecule.is_terminated self = false /\
  action ∈ Molecule._valid_actions self /\
  Molecule._state self' = Some action /\
  Molecule.record_path self' = Molecule.record_path self /\
  Molecule._path self' =
    (if Molecule.record_path self
     then (Molecule._path self ++ [Some action])%list else Molecule._path self) /\
  Molecule._counter self' = Molecule._counter self + 1 /\
  Molecule.max_steps self' = Molecule.max_steps self /\
  Molecule._target_fn self' = Molecule._target_fn self /\
  enumerate self (Some action) = Ok (Molecule._valid_actions self') /\
  r = Result.mk (Some action) 0%Q (Molecule.is_terminated self').
Proof.
  intros Hstep.
  destruct (Molecule.is_terminated self) eqn:Ht.
  { rewrite step_terminated in Hstep by done. discriminate. }
  destruct (decide (action ∈ Molecule._valid_actions self)) as [Hin|Hout].
  2:{ unfold Molecule.step in Hstep.
      rewrite Ht, (bool_decide_eq_false_2 _ Hout) in Hstep. discriminate. }
  rewrite (step_accepted _ _ Ht Hin) in Hstep.
  destruct self as [? ? ? ? ? ? ? ? ? ? ? recording ? ? ?].
  unfold enumerate in *. simpl in *.
  destruct recording; simpl in *;
    match type of Hstep with context [get_valid_actions ?s ?a ?b ?c ?d ?e] =>
      destruct (get_valid_actions s a b c d e) as [actions|e'] end;
    try discriminate; injection Hstep as <- <-; simpl; done.
Qed.

Lemma initialize_returns (self self' : Molecule.t) :
  Molecule.initialize self = (self', Ok tt) ->
  Molecule._state self' = Molecule.init_mol self /\
  Molecule.record_path self' = Molecule.record_path self /\
  Molecule._path self' =
    (if Molecule.record_path self
     then [Molecule.init_mol self] else Molecule._path self) /\
  Molecule._counter self' = 0.
Proof.
  unfold Molecule.initialize. rewrite get_valid_actions_forced, rebuild_spec.
  destruct self as [? ? ? ? ? ? ? ? ? ? ? recording ? ? ?].
  unfold enumerate. simpl.
  destruct recording; simpl;
    match goal with |- context [get_valid_actions ?s ?a ?b ?c ?d ?e] =>
      destruct (get_valid_actions s a b c d e) as [actions|e'] end;
    try discriminate; intros [= <-]; done.
Qed.

Lemma step_state_committed (self : Molecule.t) (action : string) :
  Molecule.is_terminated self = false ->
  action ∈ Molecule._valid_actions self ->
  Molecule._state (Molecule.step action self).1 = Some action.
Proof.
  intros Ht Hin. rewrite (step_accepted _ _ Ht Hin).
  destruct self as [? ? ? ? ? ? ? ? ? ? ? recording ? ? ?].
  unfold enumerate. simpl.
  destruct recording; simpl;
    match goal with |- context [get_valid_actions ?s ?a ?b ?c ?d ?e] =>
      destruct (get_valid_actions s a b c d e) end; reflexivity.
Qed.

(** C6, when the enumeration for the new state returns.  In an episode
    that is not terminated, [step] on an action of the cached action space
    makes the action the current state and appends it to the path when
    recording; it then enumerates the action space of the new state.  If
    that returns, the set becomes the cache, the counter goes up by one,
    and the call returns the new state, the reward 0 of the default hook,
    and a flag that is true exactly when the counter has reached
    [max_steps] or the goal holds on the new state.  If it raises, the
    exception leaves [step] with the state and the path already changed and
    the counter and the cache as they were. *)
Theorem step_commits_action (self : Molecule.t) (action : string) :
  Molecule.is_terminated self = false ->
  action ∈ Molecule._valid_actions self ->
  (forall actions, enumerate self (Some action) = Ok actions ->
     exists self' flag,
       Molecule.step action self
       = (self', Ok (Result.mk (Some action) (Molecule._reward self') flag)) /\
       Molecule._reward self' = 0%Q /\
       Molecule.state self' = Some action /\
       Molecule.get_path self' =
         (if Molecule.record_path self
          then (Molecule.get_path self ++ [Some action])%list
          else Molecule.get_path self) /\
       Molecule._valid_actions self' = actions /\
       Molecule.num_steps_taken self' = Molecule.num_steps_taken self + 1 /\
       (flag = true <->
          Molecule.max_steps self <= Molecule.num_steps_taken self + 1
          \/ Molecule._goal_reached self' = true)) /\
  (forall e, enumerate self (Some action) = Raise e ->
     exists self',
       Molecule.step action self = (self', Raise e) /\
       Molecule.state self' = Some action /\
       Molecule.get_path self' =
         (if Molecule.record_path self
          then (Molecule.get_path self ++ [Some action])%list
          else Molecule.get_path self) /\
       Molecule._valid_actions self' = Molecule._valid_actions self /\
       Molecule.num_steps_taken self' = Molecule.num_steps_taken self).
Proof.
  intros Ht Hin. pose proof (step_accepted _ _ Ht Hin) as Hstep.
  simpl in Hstep.
  assert (Hcfg : forall s,
            enumerate
              (if Molecule.record_path (Molecule.set_state (Some action) self)
               then Molecule.set_path
                      ((Molecule._path (Molecule.set_state (Some action) self)
                       ++ [Some action])%list)
                      (Molecule.set_state (Some action) self)
               else Molecule.set_state (Some action) self) s
            = enumerate self s).
  { intros s. unfold enumerate. destruct self as [? ? ? ? ? ? ? ? ? ? ? [] ? ? ?];
      reflexivity. }
  rewrite Hcfg in Hstep. split.
  - intros actions Hen. rewrite Hen in Hstep.
    eexists. eexists. split; [exact Hstep|].
    destruct self as [? ? ? ? ? ? ? ? ? ? ? [] ? ? ?]; simpl;
      repeat split; try done;
      unfold Molecule.is_terminated; simpl;
      rewrite orb_true_iff, Z.leb_le; done.
  - intros e Hen. rewrite Hen in Hstep.
    eexists. split; [exact Hstep|].
    destruct self as [? ? ? ? ? ? ? ? ? ? ? [] ? ? ?]; simpl; done.
Qed.

Lemma steps_path (actions : list string) :
  forall self self', steps actions self = Some self' ->
    Molecule.record_path self = true ->
    Molecule.record_path self' = true /\
    Molecule._path self' = (Molecule._path self ++ map Some actions)%list /\
    (actions <> [] ->
       Some (Molecule._state self') = last (map Some actions)).
Proof.
  induction actions as [|a actions IH]; simpl; intros self self' Hs Hrec.
  - injection Hs as <-. by rewrite app_nil_r.
  - destruct (Molecule.step a self) as [self1 [r|e]] eqn:Hstep; [|discriminate].
    apply step_returns in Hstep
      as (_ & _ & Hstate & Hrec1 & Hpath & _).
    rewrite Hrec in Hrec1, Hpath.
    destruct (IH _ _ Hs Hrec1) as (Hrec' & Hpath' & Hstate').
    split; [done|]. split.
    + by rewrite Hpath', Hpath, <- app_assoc.
    + intros _. destruct actions as [|b actions].
      * simpl in Hs. injection Hs as <-. simpl. by rewrite Hstate.
      * rewrite Hstate' by done. reflexivity.
Qed.

(** C8. With path recording on, after [initialize] and [k] calls of
    [step] that all return, [get_path] has [k + 1] elements, the first is
    the initial state and the last is the current state; a further call of
    [step] that returns adds one element and keeps both facts. *)
Theorem path_recording_invariant
    (self0 self1 self2 : Molecule.t) (actions : list string) :
  Molecule.record_path self0 = true ->
  Molecule.initialize self0 = (self1, Ok tt) ->
  steps actions self1 = Some self2 ->
  length (Molecule.get_path self2) = S (length actions) /\
  head (Molecule.get_path self2) = Some (Molecule.init_mol self0) /\
  last (Molecule.get_path self2) = Some (Molecule.state self2) /\
  (forall action self3 r,
     Molecule.step action self2 = (self3, Ok r) ->
     length (Molecule.get_path self3) = S (S (length actions)) /\
     head (Molecule.get_path self3) = Some (Molecule.init_mol self0) /\
     last (Molecule.get_path self3) = Some (Molecule.state self3)).
Proof.
  intros Hrec Hinit Hsteps.
  apply initialize_returns in Hinit as (Hstate1 & Hrec1 & Hpath1 & _).
  rewrite Hrec in Hrec1, Hpath1.
  destruct (steps_path _ _ _ Hsteps Hrec1) as (Hrec2 & Hpath2 & Hstate2).
  unfold Molecule.get_path, Molecule.state.
  rewrite Hpath1 in Hpath2.
  assert (Hlast2 : last (Molecule._path self2) = Some (Molecule._state self2)).
  { rewrite Hpath2. destruct actions as [|a actions].
    - simpl in Hsteps. injection Hsteps as <-. simpl. by rewrite Hstate1.
    - change (([Molecule.init_mol self0] ++ map Some (a :: actions))%list)
        with (Molecule.init_mol self0 :: map Some (a :: actions)).
      rewrite last_cons, <- Hstate2 by done. reflexivity. }
  split; [by rewrite Hpath2, length_app, length_map|].
  split; [by rewrite Hpath2|]. split; [exact Hlast2|].
  intros action self3 r Hstep.
  apply step_returns in Hstep as (_ & _ & Hstate3 & _ & Hpath3 & _).
  rewrite Hrec2 in Hpath3. rewrite Hpath3, Hpath2, Hstate3.
  split; [rewrite !length_app, length_map; simpl; lia|].
  split; [done|]. apply last_snoc.
Qed.

(** C10. A call of [get_valid_actions] with an explicit state, or with no
    state while the cache is empty, enumerates the action space of that
    state (of the current state in the second case) and stores it as the
    cache; the current state, the counter and the path stay as they were.
    A [step] that follows tests its action against that stored set: an
    action outside it is refused, an action inside it becomes the current
    state. *)
Theorem get_valid_actions_overwrites_cache
    (self : Molecule.t) (state : Molecule.pystate) (force_rebuild : bool)
    (actions : gset string) :
  state <> Molecule.PyNone \/ Molecule._valid_actions self = ∅ ->
  enumerate self
    (match state with
     | Molecule.PyNone => Molecule._state self
     | _ => Molecule.as_smiles state
     end) = Ok actions ->
  exists self',
    Molecule.get_valid_actions state force_rebuild self = (self', Ok actions) /\
    Molecule._valid_actions self' = actions /\
    Molecule.state self' = Molecule.state self /\
    Molecule.num_steps_taken self' = Molecule.num_steps_taken self /\
    Molecule.get_path self' = Molecule.get_path self /\
    Molecule.is_terminated self' = Molecule.is_terminated self /\
    (Molecule.is_terminated self = false ->
     forall action,
       (action ∉ actions ->
          Molecule.step action self' = (self', Raise InvalidActionError)) /\
       (action ∈ actions ->
          Molecule.state (Molecule.step action self').1 = Some action)).
Proof.
  intros Hcase Hen. exists (Molecule.set_valid_actions actions self).
  assert (Hcall : Molecule.get_valid_actions state force_rebuild self
                  = (Molecule.set_valid_actions actions self, Ok actions)).
  { unfold Molecule.get_valid_actions.
    destruct state as [|s|m].
    - destruct Hcase as [Hcase|Hempty]; [done|].
      rewrite bool_decide_eq_false_2 by (by intros Hne; apply Hne).
      cbn [andb]. by rewrite rebuild_spec, Hen.
    - rewrite rebuild_spec. by rewrite Hen.
    - rewrite rebuild_spec. by rewrite Hen. }
  split; [exact Hcall|]. do 5 (split; [done|]).
  intros Ht action. split.
  - intros Hout. by apply step_refused.
  - intros Hin. by apply step_state_committed.
Qed.

End Transitions.

(** ** The claims on the small backend *)

Section Examples.
#[local] Existing Instance MiniChem.chem.

Ltac by_evaluation := apply (bool_decide_unpack _); vm_compute; exact I.

(** Cutting the middle bond of butane leaves two fragments of two atoms
    each: nothing is added. *)
Lemma bond_removal_keeps_largest_fragment_witness :
  GetBondBetweenAtoms butane 1 2 = Some (mkBond 1 1 2 SINGLE) /\
  list_index (Some SINGLE) bond_orders = Some 1%nat /\
  bond_removal_candidate butane 1 (mkBond 1 1 2 SINGLE) = Ok None.
Proof.
  split; [reflexivity|]. split; [reflexivity|].
  destruct (bond_removal_keeps_largest_fragment butane 1
              (mkBond 1 1 2 SINGLE) (mkBond 1 1 2 SINGLE)
              eq_refl eq_refl) as (_ & Hkept & _).
  destruct (Hkept (MiniChem.remove_bond butane 1 2) eq_refl)
    as (smallest & largest & _ & _ & _ & _ & _ & Hnone).
  apply (Hnone "CC" "CC"); [reflexivity|simpl; lia|simpl; lia].
Defined.

Lemma get_valid_actions_unparsable_state_witness :
  "((" <> EmptyString /\
  MolFromSmiles "((" = None /\
  get_valid_actions (Some "((") {[ "C"; "N"; "O" ]} true true None true
  = Raise (TypeError "unsupported operand type(s) for &: 'str' and 'str'").
Proof.
  split; [discriminate|]. split; [reflexivity|].
  apply (get_valid_actions_unparsable_state "((" {[ "C"; "N"; "O" ]}
           true true None true); [discriminate|reflexivity].
Defined.

(** Two methane molecules: the two carbons have no bond between them and
    are joined by a single bond at level 1. *)
Lemma bond_addition_ring_constraints_witness :
  GetBondBetweenAtoms two_methanes 0 1 = None /\
  exists t,
    list_index (Some t) bond_orders = Some 1%nat /\
    bond_addition_candidate two_methanes None false 1 0 1
    = Ok (sanitized_smiles (AddBond (Kekulize two_methanes) 0 1 t)).
Proof.
  split; [reflexivity|].
  apply (bond_addition_ring_constraints two_methanes None false 1 0 1 eq_refl);
    [reflexivity|reflexivity|lia].
Defined.

(** At level 4, which the free-valence map has as soon as an atom type of
    valence above 4 is offered, the same pair passes both ring tests and the
    lookup of the bond order fails: no bond is added, the enumeration
    raises. *)
Lemma bond_addition_level_four_raises :
  MolFromSmiles "C.C" = Some two_methanes /\
  py_max (map atom_valences (elements ({[ "C"; "S" ]} : gset string))) = Ok 6%nat /\
  (4%nat, [0%nat; 1%nat]) ∈ free_valence_map two_methanes 6 /\
  (0%nat, 1%nat) ∈ combinations2 [0%nat; 1%nat] /\
  GetBondBetweenAtoms two_methanes 0 1 = None /\
  between_rings_forbidden two_methanes true 0 1 = false /\
  ring_size_forbidden two_methanes None 0 1 = false /\
  bond_addition_candidate two_methanes None true 4 0 1
  = Raise (IndexError "list index out of range") /\
  get_valid_actions (Some "C.C") {[ "C"; "S" ]} true true None true
  = Raise (IndexError "list index out of range").
Proof.
  split; [reflexivity|]. split; [by vm_compute|].
  split; [by_evaluation|]. split; [by_evaluation|].
  split; [reflexivity|]. split; [reflexivity|]. split; [reflexivity|].
  split; [reflexivity|]. by vm_compute.
Qed.

Lemma step_invalid_action_witness :
  Molecule.is_terminated env_cno_started = false /\
  ("X" ∉ Molecule._valid_actions env_cno_started) /\
  Molecule.step "X" env_cno_started
  = (env_cno_started, Raise InvalidActionError).
Proof.
  assert (Hout : "X" ∉ Molecule._valid_actions env_cno_started)
    by by_evaluation.
  split; [reflexivity|]. split; [exact Hout|].
  exact (step_invalid_action env_cno_started "X" eq_refl Hout).
Defined.

Lemma termination_is_sticky_witness :
  (Molecule.max_steps env_cno_no_steps <= Molecule._counter env_cno_no_steps
   \/ Molecule._goal_reached env_cno_no_steps = true) /\
  Molecule.step "C"
    (run [CallStep "C"; CallGetValidActions (Molecule.PyStr "C") true]
         env_cno_no_steps)
  = (run [CallStep "C"; CallGetValidActions (Molecule.PyStr "C") true]
         env_cno_no_steps,
     Raise EpisodeTerminatedError).
Proof.
  assert (Hterm : Molecule.max_steps env_cno_no_steps
                  <= Molecule._counter env_cno_no_steps
                  \/ Molecule._goal_reached env_cno_no_steps = true)
    by (left; vm_compute; discriminate).
  split; [exact Hterm|].
  exact (proj1 (proj2 (proj2
           (termination_is_sticky env_cno_no_steps
              [CallStep "C"; CallGetValidActions (Molecule.PyStr "C") true]
              "C" Hterm)))).
Defined.

(** From the empty molecule with C, N and O, the step to "C" returns. *)
Lemma step_commits_action_witness :
  Molecule.is_terminated env_cno_started = false /\
  ("C" ∈ Molecule._valid_actions env_cno_started) /\
  exists self' flag,
    Molecule.step "C" env_cno_started
    = (self', Ok (Result.mk (Some "C") (Molecule._reward self') flag)) /\
    Molecule.state self' = Some "C" /\
    Molecule.num_steps_taken self' = 1 /\
    Molecule.get_path self' = [None; Some "C"].
Proof.
  assert (Hin : "C" ∈ Molecule._valid_actions env_cno_started)
    by by_evaluation.
  split; [reflexivity|]. split; [exact Hin|].
  assert (exists actions, enumerate env_cno_started (Some "C") = Ok actions)
    as [actions Hen] by (vm_compute; eauto).
  destruct (step_commits_action env_cno_started "C" eq_refl Hin) as [Hok _].
  destruct (Hok actions Hen)
    as (self' & flag & Hstep & _ & Hstate & Hpath & _ & Hcount & _).
  exists self', flag. split; [exact Hstep|]. split; [exact Hstate|].
  split; [exact Hcount|exact Hpath].
Defined.

(** After [initialize], the episode is not terminated and the action is in
    the action space, yet [step] returns no result.  With oxygen as the only
    atom type the free-valence map has the single level 1, and the
    enumeration for "O" raises in the atom addition loop at level 2.  With
    sodium among the atom types, its label is in the first action space and
    does not parse, so the enumeration for it raises.  In both cases the
    state is already changed and the counter is still 0. *)
Lemma step_on_valid_action_raises :
  (Molecule.is_terminated env_oxygen = false /\
   ("O" ∈ Molecule._valid_actions env_oxygen) /\
   (Molecule.step "O" env_oxygen).2 = Raise (KeyError (KInt 2)) /\
   (forall self' r, Molecule.step "O" env_oxygen <> (self', Ok r)) /\
   Molecule.state (Molecule.step "O" env_oxygen).1 = Some "O" /\
   Molecule.num_steps_taken (Molecule.step "O" env_oxygen).1 = 0) /\
  (Molecule.is_terminated env_sodium = false /\
   ("Na" ∈ Molecule._valid_actions env_sodium) /\
   MolFromSmiles "Na" = None /\
   (exists e, (Molecule.step "Na" env_sodium).2 = Raise e) /\
   (forall self' r, Molecule.step "Na" env_sodium <> (self', Ok r)) /\
   Molecule.state (Molecule.step "Na" env_sodium).1 = Some "Na" /\
   Molecule.num_steps_taken (Molecule.step "Na" env_sodium).1 = 0).
Proof.
  assert (Hoxygen : (Molecule.step "O" env_oxygen).2 = Raise (KeyError (KInt 2)))
    by (by vm_compute).
  assert (Hsodium : exists e, (Molecule.step "Na" env_sodium).2 = Raise e)
    by (eexists; by vm_compute).
  split.
  - split; [reflexivity|]. split; [by_evaluation|]. split; [exact Hoxygen|].
    split; [|split; by vm_compute].
    intros self' r Hstep. rewrite Hstep in Hoxygen. discriminate.
  - split; [reflexivity|]. split; [by_evaluation|]. split; [reflexivity|].
    split; [exact Hsodium|]. split; [|split; by vm_compute].
    intros self' r Hstep. destruct Hsodium as [e He].
    rewrite Hstep in He. discriminate.
Qed.

Lemma path_recording_invariant_witness :
  Molecule.record_path env_cno = true /\
  Molecule.initialize env_cno = (env_cno_started, Ok tt) /\
  steps ["C"; "CC"] env_cno_started = Some env_cno_after /\
  length (Molecule.get_path env_cno_after) = 3%nat /\
  last (Molecule.get_path env_cno_after)
  = Some (Molecule.state env_cno_after).
Proof.
  assert (Hinit : Molecule.initialize env_cno = (env_cno_started, Ok tt))
    by (by vm_compute).
  assert (Hsteps : steps ["C"; "CC"] env_cno_started = Some env_cno_after)
    by (by vm_compute).
  split; [reflexivity|]. split; [exact Hinit|]. split; [exact Hsteps|].
  destruct (path_recording_invariant env_cno env_cno_started env_cno_after
              ["C"; "CC"] eq_refl Hinit Hsteps) as (Hlen & _ & Hlast & _).
  split; [exact Hlen|exact Hlast].
Defined.

(** The episode is at the empty molecule.  Asking for the actions of "C"
    replaces the cache, and a step to "CC", which the empty molecule does
    not offer, is then accepted. *)
Lemma get_valid_actions_overwrites_cache_witness :
  (Molecule.PyStr "C" <> Molecule.PyNone
   \/ Molecule._valid_actions env_cno_started = ∅) /\
  Molecule.state env_cno_started = None /\
  ("CC" ∉ Molecule._valid_actions env_cno_started) /\
  exists self',
    (Molecule.get_valid_actions (Molecule.PyStr "C") false env_cno_started).1
    = self' /\
    Molecule.state self' = None /\
    ("CC" ∈ Molecule._valid_actions self') /\
    Molecule.state (Molecule.step "CC" self').1 = Some "CC".
Proof.
  assert (Hcase : Molecule.PyStr "C" <> Molecule.PyNone
                  \/ Molecule._valid_actions env_cno_started = ∅)
    by (left; discriminate).
  split; [exact Hcase|]. split; [reflexivity|]. split; [by_evaluation|].
  assert (Hen : enumerate env_cno_started (Some "C") = Ok actions_of_methane)
    by (by vm_compute).
  assert (Hin : "CC" ∈ actions_of_methane) by by_evaluation.
  destruct (get_valid_actions_overwrites_cache env_cno_started
              (Molecule.PyStr "C") false actions_of_methane Hcase Hen)
    as (self' & Hcall & Hcache & Hstate & _ & _ & _ & Hstep).
  exists self'. split; [by rewrite Hcall|]. split; [exact Hstate|].
  split; [by rewrite Hcache|].
  by apply (Hstep eq_refl "CC").
Defined.

End Examples.

(** * Further properties of the enumerator *)

Section Lookups.
Context `{Chem}.

Lemma dict_get_levels {V} (f : nat -> V) (start count k : nat) :
  dict_get (map (fun i => (i, f i)) (seq start count)) k =
    if (start <=? k)%nat && (k <? start + count)%nat
    then Ok (f k) else Raise (KeyError (KInt k)).
Proof.
  revert start. induction count as [|count IH]; intros start; simpl.
  - destruct (Nat.leb_spec start k), (Nat.ltb_spec k (start + 0));
      simpl; try reflexivity; lia.
  - destruct (Nat.eqb start k) eqn:Heq.
    + apply Nat.eqb_eq in Heq as ->.
      destruct (Nat.leb_spec k k), (Nat.ltb_spec k (k + S count));
        simpl; try reflexivity; lia.
    + apply Nat.eqb_neq in Heq. rewrite IH.
      destruct (Nat.leb_spec start k), (Nat.leb_spec (S start) k),
               (Nat.ltb_spec k (S start + count)),
               (Nat.ltb_spec k (start + S count));
        simpl; try reflexivity; lia.
Qed.

Lemma free_valence_map_get (mol : Mol) (max_valence level : nat) :
  dict_get (free_valence_map mol max_valence) level =
    if (1 <=? level)%nat && (level <? max_valence)%nat
    then Ok (filter (fun atom => (level <= GetNumImplicitHs mol atom)%nat)
               (GetAtoms mol))
    else Raise (KeyError (KInt level)).
Proof.
  unfold free_valence_map.
  rewrite (dict_get_levels
             (fun i => filter (fun atom => (i <= GetNumImplicitHs mol atom)%nat)
                         (GetAtoms mol))).
  destruct (Nat.leb_spec 1 level), (Nat.ltb_spec level (1 + (max_valence - 1))),
           (Nat.ltb_spec level max_valence); simpl; try reflexivity; lia.
Qed.

(** X1. The free-valence map has exactly the levels from 1 to the maximum
    valence minus one: a lookup at such a level gives the atoms with at least
    that many implicit hydrogens, in the order of [GetAtoms]; a lookup at any
    other level raises [KeyError] with that level. *)
Theorem free_valence_map_lookup (mol : Mol) (max_valence level : nat) :
  dict_get (free_valence_map mol max_valence) level =
    if (1 <=? level)%nat && (level <? max_valence)%nat
    then Ok (filter (fun atom => (level <= GetNumImplicitHs mol atom)%nat)
               (GetAtoms mol))
    else Raise (KeyError (KInt level)).
Proof.
  unfold free_valence_map.
  rewrite (dict_get_levels
             (fun i => filter (fun atom => (i <= GetNumImplicitHs mol atom)%nat)
                         (GetAtoms mol))).
  destruct (Nat.leb_spec 1 level), (Nat.ltb_spec level (1 + (max_valence - 1))),
           (Nat.ltb_spec level max_valence); simpl; try reflexivity; lia.
Qed.

Lemma free_valence_map_levels (mol : Mol) (max_valence level : nat)
    (atoms : list nat) :
  (level, atoms) ∈ free_valence_map mol max_valence ->
  (1 <= level < max_valence)%nat /\
  atoms = filter (fun atom => (level <= GetNumImplicitHs mol atom)%nat)
            (GetAtoms mol).
Proof.
  unfold free_valence_map. intros Hin.
  apply list_elem_of_In, in_map_iff in Hin as (i & [= <- <-] & Hi).
  apply in_seq in Hi. split; [lia|reflexivity].
Qed.

Lemma dict_get_str_table (f : string -> nat) (types : list string)
    (element : string) :
  element ∈ types ->
  dict_get_str (map (fun t => (t, f t)) types) element = Ok (f element).
Proof.
  induction types as [|t types IH]; intros Hin; [by apply elem_of_nil in Hin|].
  simpl. destruct (String.eqb t element) eqn:Heq.
  - apply String.eqb_eq in Heq as ->. reflexivity.
  - apply IH. apply elem_of_cons in Hin as [->|Hin]; [|exact Hin].
    rewrite String.eqb_refl in Heq. discriminate.
Qed.

End Lookups.

Lemma for_each_returns {A S} (body : A -> S -> result S) (xs : list A) acc R :
  for_each xs body acc = Ok R ->
  forall x, x ∈ xs -> exists acc1 acc2, body x acc1 = Ok acc2.
Proof.
  revert acc. induction xs as [|y xs IH]; simpl; intros acc HR x Hx.
  - by apply elem_of_nil in Hx.
  - destruct (body y acc) as [acc'|e] eqn:Hy; [|discriminate].
    apply elem_of_cons in Hx as [->|Hx]; [by eauto|]. by eapply IH.
Qed.

Lemma for_each_total {A S} (body : A -> S -> result S) (xs : list A) :
  (forall x acc, x ∈ xs -> exists acc', body x acc = Ok acc') ->
  forall acc, exists R, for_each xs body acc = Ok R.
Proof.
  induction xs as [|x xs IH]; intros Hbody acc; simpl; [by eauto|].
  destruct (Hbody x acc) as [acc' ->]; [by left|].
  apply IH. intros y acc'' Hy. apply Hbody. by right.
Qed.

Section AtomAddition.
Context `{Chem}.

Lemma atom_addition_members (state : Mol) (types : list string)
    (valences : list (string * nat)) (levels : list (nat * list nat))
    (R : gset string) :
  _atom_addition state types valences levels = Ok R ->
  forall s, s ∈ R <->
    exists i bt atoms atom element,
      (i, bt) ∈ bond_orders_dict /\ dict_get levels i = Ok atoms /\
      atom ∈ atoms /\ element ∈ types /\
      atom_addition_candidate state valences i bt atom element = Ok (Some s).
Proof.
  intros HR s. unfold _atom_addition in HR.
  eapply (for_each_collects _
            (fun p s => exists atoms atom element,
               dict_get levels p.1 = Ok atoms /\ atom ∈ atoms /\
               element ∈ types /\
               atom_addition_candidate state valences p.1 p.2 atom element
               = Ok (Some s))) in HR.
  - rewrite HR. split.
    + intros [Hs|([i bt] & Hp & atoms & atom & element & Hc)];
        [by apply elem_of_empty in Hs|].
      by exists i, bt, atoms, atom, element.
    + intros (i & bt & atoms & atom & element & Hp & Hc). right.
      exists (i, bt). split; [done|]. by exists atoms, atom, element.
  - intros [i bt] acc R' HR' s'. unfold bind in HR'. simpl.
    destruct (dict_get levels i) as [atoms|e] eqn:Hlevel; [|discriminate].
    eapply (for_each_collects _
              (fun atom s => exists element, element ∈ types /\
                 atom_addition_candidate state valences i bt atom element
                 = Ok (Some s))) in HR'.
    + rewrite HR'. split.
      * intros [Hs|(atom & Ha & element & He & Hc)]; [by left|].
        right. by exists atoms, atom, element.
      * intros [Hs|(atoms' & atom & element & [= <-] & Ha & He & Hc)];
          [by left|].
        right. exists atom. split; [done|]. by exists element.
    + intros atom acc' R'' HR''.
      apply (for_each_collects _ _ _ (add_opt_collects _) _ _ HR'').
Qed.

Lemma atom_addition_candidate_table (state : Mol) (types : list string)
    (i : nat) (bt : BondType) (atom : nat) (element : string) :
  element ∈ types ->
  atom_addition_candidate state (map (fun t => (t, atom_valences t)) types)
    i bt atom element =
    Ok (if (i <=? atom_valences element)%nat
        then sanitized_smiles
               (AddBond (AddAtom state element).1 atom
                  (AddAtom state element).2 bt)
        else None).
Proof.
  intros Hin. unfold atom_addition_candidate.
  rewrite (dict_get_str_table atom_valences) by done. simpl.
  destruct (i <=? atom_valences element)%nat; [|reflexivity].
  by destruct (AddAtom state element).
Qed.

(** X2. When the atom addition family returns, its set holds exactly the
    serializations of the sanitized molecules obtained by adding one atom of
    an offered type to an atom of the molecule with a bond of order 1, 2 or
    3, where the order exceeds neither the implicit-hydrogen count of the
    existing atom nor the valence of the new atom's type. *)
Theorem atom_addition_actions (mol : Mol) (types : list string)
    (max_valence : nat) (R : gset string) :
  _atom_addition mol types (map (fun t => (t, atom_valences t)) types)
    (free_valence_map mol max_valence) = Ok R ->
  forall s, s ∈ R <->
    exists i bt atom element new_state,
      (i, bt) ∈ bond_orders_dict /\
      atom ∈ GetAtoms mol /\ (i <= GetNumImplicitHs mol atom)%nat /\
      element ∈ types /\ (i <= atom_valences element)%nat /\
      SanitizeMol (AddBond (AddAtom mol element).1 atom
                     (AddAtom mol element).2 bt) = Some new_state /\
      s = MolToSmiles new_state.
Proof.
  intros HR s. rewrite (atom_addition_members _ _ _ _ _ HR s). split.
  - intros (i & bt & atoms & atom & element & Hp & Hlevel & Ha & He & Hc).
    rewrite free_valence_map_get in Hlevel.
    destruct ((1 <=? i)%nat && (i <? max_valence)%nat); [|discriminate].
    injection Hlevel as <-. apply list_elem_of_filter in Ha as [Hfree Ha].
    rewrite atom_addition_candidate_table in Hc by done.
    destruct (Nat.leb_spec i (atom_valences element)); [|discriminate].
    unfold sanitized_smiles in Hc.
    destruct (SanitizeMol _) as [new_state|] eqn:Hs; [|discriminate].
    injection Hc as <-. by exists i, bt, atom, element, new_state.
  - intros (i & bt & atom & element & new_state
            & Hp & Ha & Hfree & He & Hval & Hs & ->).
    destruct (for_each_returns _ _ _ _ HR _ Hp) as (acc1 & acc2 & Hbody).
    simpl in Hbody. unfold bind in Hbody.
    destruct (dict_get (free_valence_map mol max_valence) i)
      as [atoms|e] eqn:Hlevel; [|discriminate].
    exists i, bt, atoms, atom, element. split; [done|]. split; [done|].
    rewrite free_valence_map_get in Hlevel.
    destruct ((1 <=? i)%nat && (i <? max_valence)%nat); [|discriminate].
    injection Hlevel as <-. split; [by apply list_elem_of_filter|].
    split; [done|]. rewrite atom_addition_candidate_table by done.
    apply Nat.leb_le in Hval as ->. unfold sanitized_smiles. by rewrite Hs.
Qed.

End AtomAddition.

Section ValenceLevels.
Context `{Chem}.

Lemma atom_addition_level_returns (state : Mol) (types : list string)
    (i : nat) (bt : BondType) (atoms : list nat) (acc : gset string) :
  exists R,
    for_each atoms (fun atom acc =>
      for_each types (fun element acc =>
        (c <- atom_addition_candidate state
                (map (fun t => (t, atom_valences t)) types) i bt atom element ;;
         Ok (add_opt c acc))%py) acc) acc = Ok R.
Proof.
  apply for_each_total. intros atom acc' _.
  apply for_each_total. intros element acc'' Hin.
  rewrite atom_addition_candidate_table by done. simpl. eauto.
Qed.

Lemma atom_addition_low_valence (mol : Mol) (types : list string)
    (max_valence : nat) :
  (max_valence <= 3)%nat ->
  _atom_addition mol types (map (fun t => (t, atom_valences t)) types)
    (free_valence_map mol max_valence)
  = Raise (KeyError (KInt (Nat.max 1 max_valence))).
Proof.
  intros Hlow. unfold _atom_addition, bond_orders_dict. cbn [for_each].
  rewrite !free_valence_map_get.
  destruct max_valence as [|[|[|[|v]]]]; try lia; cbn [Nat.leb Nat.ltb andb bind];
    try reflexivity.
  - destruct (atom_addition_level_returns mol types 1 SINGLE
                (filter (fun atom => (1 <= GetNumImplicitHs mol atom)%nat)
                   (GetAtoms mol)) ∅) as [R1 ->].
    reflexivity.
  - destruct (atom_addition_level_returns mol types 1 SINGLE
                (filter (fun atom => (1 <= GetNumImplicitHs mol atom)%nat)
                   (GetAtoms mol)) ∅) as [R1 ->].
    destruct (atom_addition_level_returns mol types 2 DOUBLE
                (filter (fun atom => (2 <= GetNumImplicitHs mol atom)%nat)
                   (GetAtoms mol)) R1) as [R2 ->].
    reflexivity.
Qed.

(** X3. The atom addition loop asks the free-valence map for the levels 1,
    2 and 3, and the map stops below the largest valence of the atom types:
    when that valence is at most 3, the enumeration of every non-empty state
    that parses raises [KeyError] with the first missing level, whatever the
    molecule and the options. *)
Theorem get_valid_actions_low_valence
    (state : string) (mol : Mol) (atom_types : gset string)
    (max_valence : nat) (allow_removal allow_no_modification : bool)
    (allowed_ring_sizes : option (gset nat))
    (allow_bonds_between_rings : bool) :
  state <> EmptyString ->
  MolFromSmiles state = Some mol ->
  max_valence_of atom_types = Ok max_valence ->
  (max_valence <= 3)%nat ->
  get_valid_actions (Some state) atom_types allow_removal
    allow_no_modification allowed_ring_sizes allow_bonds_between_rings
  = Raise (KeyError (KInt (Nat.max 1 max_valence))).
Proof.
  intros Hne Hparse Hmax Hlow. unfold get_valid_actions, falsy.
  apply String.eqb_neq in Hne as ->. simpl default. rewrite Hparse.
  rewrite map_map. simpl. unfold max_valence_of in Hmax.
  change (map (fun x : string => atom_valences x) (elements atom_types))
    with (map atom_valences (elements atom_types)).
  rewrite Hmax. simpl bind.
  by rewrite atom_addition_low_valence.
Qed.

(** X4. With no atom types at all, the enumeration of a non-empty state
    that parses raises the [ValueError] of [max] on an empty sequence. *)
Theorem get_valid_actions_no_atom_types
    (state : string) (mol : Mol)
    (allow_removal allow_no_modification : bool)
    (allowed_ring_sizes : option (gset nat))
    (allow_bonds_between_rings : bool) :
  state <> EmptyString ->
  MolFromSmiles state = Some mol ->
  get_valid_actions (Some state) ∅ allow_removal
    allow_no_modification allowed_ring_sizes allow_bonds_between_rings
  = Raise (ValueError "max() arg is an empty sequence").
Proof.
  intros Hne Hparse. unfold get_valid_actions, falsy.
  apply String.eqb_neq in Hne as ->. simpl default. rewrite Hparse.
  by rewrite elements_empty.
Qed.

End ValenceLevels.

(** ** Fragments *)

Lemma split_dot_no_dot (s : string) :
  forall f, f ∈ split_dot s -> contains_dot f = false.
Proof.
  induction s as [|c rest IH]; simpl; intros f Hf.
  - by apply list_elem_of_singleton in Hf as ->.
  - destruct (Ascii.eqb c ".") eqn:Hc.
    + apply elem_of_cons in Hf as [->|Hf]; [reflexivity|by apply IH].
    + destruct (split_dot rest) as [|hd tl] eqn:Hrest.
      * apply list_elem_of_singleton in Hf as ->. simpl. by rewrite Hc.
      * apply elem_of_cons in Hf as [->|Hf].
        -- simpl. rewrite Hc. apply IH. by left.
        -- apply IH. by right.
Qed.

(** X5. [split_dot] loses nothing: joining the fragments with the delimiter
    gives the string back, no fragment contains the delimiter, and there is
    always at least one fragment. *)
Theorem split_dot_round_trip (s : string) :
  String.concat "." (split_dot s) = s /\
  (forall f, f ∈ split_dot s -> contains_dot f = false) /\
  split_dot s <> [].
Proof.
  split; [|split; [apply split_dot_no_dot|apply split_dot_nonempty]].
  induction s as [|c rest IH]; [reflexivity|]. simpl.
  pose proof (split_dot_nonempty rest) as Hne.
  destruct (Ascii.eqb c ".") eqn:Hc.
  - apply Ascii.eqb_eq in Hc as ->.
    destruct (split_dot rest) as [|hd tl]; [done|].
    simpl in *. by rewrite IH.
  - destruct (split_dot rest) as [|hd tl]; [done|].
    simpl in *. destruct tl; simpl in *; by rewrite <- IH.
Qed.

Section CandidateCases.
Context `{Chem}.

Lemma list_index_absent `{EqDecision A} (x : A) (l : list A) :
  list_index x l = None -> x ∉ l.
Proof.
  induction l as [|y l IH]; simpl; intros Hnone Hin; [by apply elem_of_nil in Hin|].
  destruct (decide (y = x)) as [->|Hne]; [discriminate|].
  destruct (list_index x l) eqn:Hl; [discriminate|].
  apply elem_of_cons in Hin as [->|Hin]; [done|]. by apply IH.
Qed.

Lemma standard_order (t : BondType) (o : nat) :
  list_index (Some t) bond_orders = Some o -> (1 <= o <= 3)%nat.
Proof.
  destruct t; vm_compute; intros Ho; try discriminate;
    injection Ho as <-; lia.
Qed.

Lemma bond_addition_candidate_existing
    (state : Mol) (sizes : option (gset nat)) (allow : bool)
    (valence atom1 atom2 : nat) (bond : Bond) :
  GetBondBetweenAtoms state atom1 atom2 = Some bond ->
  bond_addition_candidate state sizes allow valence atom1 atom2 =
    match list_index (Some (GetBondType bond)) bond_orders with
    | None => Ok None
    | Some o =>
        if (o + valence <=? 3)%nat
        then (t <- bond_orders_at (o + valence) ;;
              Ok (sanitized_smiles
                    (ReplaceBond (Kekulize state) (GetIdx bond)
                       (SetBondType bond t))))%py
        else Ok None
    end.
Proof.
  intros Hbond. unfold bond_addition_candidate. rewrite Hbond.
  destruct (list_index (Some (GetBondType bond)) bond_orders) as [o|] eqn:Ho.
  - rewrite (bool_decide_eq_true_2 _ (list_index_elem _ _ _ Ho)).
    cbn [negb]. unfold py_index. rewrite Ho. cbn [bind].
    change (length bond_orders) with 4%nat.
    destruct (Nat.ltb_spec (o + valence) 4), (Nat.leb_spec (o + valence) 3);
      try reflexivity; lia.
  - by rewrite (bool_decide_eq_false_2 _ (list_index_absent _ _ Ho)).
Qed.

Lemma bond_removal_candidate_cases (state : Mol) (valence : nat) (b bond : Bond) :
  GetBondBetweenAtoms state (GetBeginAtomIdx b) (GetEndAtomIdx b) = Some bond ->
  bond_removal_candidate state valence b =
    match list_index (Some (GetBondType bond)) bond_orders with
    | None => Ok None
    | Some o =>
        if (valence <? o)%nat
        then (t <- bond_orders_at (o - valence) ;;
              Ok (sanitized_smiles
                    (ReplaceBond (Kekulize state) (GetIdx bond)
                       (SetBondType bond t))))%py
        else if (valence =? o)%nat
        then match SanitizeMol
                     (RemoveBond (Kekulize state) (GetBeginAtomIdx bond)
                        (GetEndAtomIdx bond)) with
             | None => Ok None
             | Some new_state => largest_fragment (MolToSmiles new_state)
             end
        else Ok None
    end.
Proof.
  intros Hbond. unfold bond_removal_candidate. rewrite Hbond.
  destruct (list_index (Some (GetBondType bond)) bond_orders) as [o|] eqn:Ho.
  - rewrite (bool_decide_eq_true_2 _ (list_index_elem _ _ _ Ho)).
    cbn [negb]. unfold py_index. rewrite Ho. cbn [bind].
    destruct (Nat.ltb_spec valence o) as [Hlt|Hge].
    + destruct (Z.ltb_spec 0 (Z.of_nat o - Z.of_nat valence)); [|lia].
      replace (Z.to_nat (Z.of_nat o - Z.of_nat valence))
        with (o - valence)%nat by lia.
      reflexivity.
    + destruct (Z.ltb_spec 0 (Z.of_nat o - Z.of_nat valence)); [lia|].
      destruct (Nat.eqb_spec valence o) as [->|Hne].
      * replace (Z.of_nat o - Z.of_nat o) with 0 by lia. reflexivity.
      * destruct (Z.eqb_spec (Z.of_nat o - Z.of_nat valence) 0); [lia|].
        reflexivity.
  - by rewrite (bool_decide_eq_false_2 _ (list_index_absent _ _ Ho)).
Qed.

Lemma largest_fragment_returns (smiles : string) :
  exists c, largest_fragment smiles = Ok c /\
    forall s, c = Some s ->
      s ∈ split_dot smiles /\ contains_dot s = false.
Proof.
  destruct (largest_fragment_spec smiles)
    as (smallest & largest & _ & _ & _ & Hin & _ & ->).
  eexists. split; [reflexivity|]. intros s Hs.
  destruct (_ || _); [|discriminate]. injection Hs as <-.
  split; [exact Hin|]. by apply (split_dot_no_dot smiles).
Qed.

End CandidateCases.

Section BondOrders.
Context `{Chem}.

(** X6. For a pair of atoms that already has a bond, bond addition looks
    only at the bond: a bond whose type is not single, double or triple is
    skipped; otherwise the order is raised by the level, the bond is replaced
    in the kekulized molecule and the result kept if it sanitizes, and the
    pair is skipped when the raised order would exceed 3.  The pair never
    makes the enumeration raise, and the two ring options play no part. *)
Theorem bond_addition_raises_order
    (state : Mol) (allowed_ring_sizes : option (gset nat))
    (allow_bonds_between_rings : bool) (valence atom1 atom2 : nat)
    (bond : Bond) :
  GetBondBetweenAtoms state atom1 atom2 = Some bond ->
  let candidate :=
    bond_addition_candidate state allowed_ring_sizes
      allow_bonds_between_rings valence atom1 atom2 in
  (list_index (Some (GetBondType bond)) bond_orders = None ->
     candidate = Ok None) /\
  (forall o, list_index (Some (GetBondType bond)) bond_orders = Some o ->
     ((o + valence <= 3)%nat ->
        exists t,
          list_index (Some t) bond_orders = Some (o + valence)%nat /\
          candidate =
            Ok (sanitized_smiles
                  (ReplaceBond (Kekulize state) (GetIdx bond)
                     (SetBondType bond t)))) /\
     ((3 < o + valence)%nat -> candidate = Ok None)) /\
  (exists c, candidate = Ok c) /\
  (forall sizes allow,
     bond_addition_candidate state sizes allow valence atom1 atom2 = candidate).
Proof.
  intros Hbond candidate.
  assert (Hcases := bond_addition_candidate_existing state allowed_ring_sizes
                      allow_bonds_between_rings valence atom1 atom2 bond Hbond).
  fold candidate in Hcases.
  split; [|split; [|split]].
  - intros Hnone. by rewrite Hcases, Hnone.
  - intros o Ho. rewrite Hcases, Ho.
    pose proof (standard_order _ _ Ho) as Hstd. split.
    + intros Hle. apply Nat.leb_le in Hle as Hle'. rewrite Hle'.
      destruct (bond_orders_at_defined (o + valence)) as [t Ht]; [lia|].
      exists t. rewrite Ht. split; [|reflexivity].
      by apply bond_orders_at_ok in Ht as [_ Ht].
    + intros Hgt. apply Nat.leb_gt in Hgt as ->. reflexivity.
  - rewrite Hcases.
    destruct (list_index _ bond_orders) as [o|] eqn:Ho; [|by eauto].
    pose proof (standard_order _ _ Ho) as Hstd.
    destruct (Nat.leb_spec (o + valence) 3); [|by eauto].
    destruct (bond_orders_at_defined (o + valence)) as [t ->]; [lia|].
    simpl. eauto.
  - intros sizes allow. rewrite Hcases.
    by apply bond_addition_candidate_existing.
Qed.

(** X7. Bond removal with an amount below the order of a bond lowers the
    order by that amount in the kekulized molecule and keeps the result if it
    sanitizes; with an amount above the order, and for a bond whose type is
    not single, double or triple, it contributes nothing. *)
Theorem bond_removal_lowers_order
    (state : Mol) (valence : nat) (b bond : Bond) :
  GetBondBetweenAtoms state (GetBeginAtomIdx b) (GetEndAtomIdx b) = Some bond ->
  (list_index (Some (GetBondType bond)) bond_orders = None ->
     bond_removal_candidate state valence b = Ok None) /\
  (forall o, list_index (Some (GetBondType bond)) bond_orders = Some o ->
     ((valence < o)%nat ->
        exists t,
          list_index (Some t) bond_orders = Some (o - valence)%nat /\
          bond_removal_candidate state valence b =
            Ok (sanitized_smiles
                  (ReplaceBond (Kekulize state) (GetIdx bond)
                     (SetBondType bond t)))) /\
     ((o < valence)%nat -> bond_removal_candidate state valence b = Ok None)).
Proof.
  intros Hbond. rewrite (bond_removal_candidate_cases _ _ _ _ Hbond). split.
  - by intros ->.
  - intros o Ho. rewrite Ho. pose proof (standard_order _ _ Ho) as Hstd. split.
    + intros Hlt. apply Nat.ltb_lt in Hlt as Hlt'. rewrite Hlt'.
      destruct (bond_orders_at_defined (o - valence)) as [t Ht]; [lia|].
      exists t. rewrite Ht. split; [|reflexivity].
      by apply bond_orders_at_ok in Ht as [_ Ht].
    + intros Hgt.
      destruct (Nat.ltb_spec valence o); [lia|].
      destruct (Nat.eqb_spec valence o); [lia|]. reflexivity.
Qed.

(** X8. An action that comes from deleting a bond is one fragment of the
    serialization of the sanitized molecule, and it never contains the
    fragment delimiter. *)
Theorem removed_bond_action_is_one_fragment
    (state : Mol) (valence : nat) (b bond : Bond) (s : string) :
  GetBondBetweenAtoms state (GetBeginAtomIdx b) (GetEndAtomIdx b) = Some bond ->
  list_index (Some (GetBondType bond)) bond_orders = Some valence ->
  bond_removal_candidate state valence b = Ok (Some s) ->
  contains_dot s = false /\
  exists new_state,
    SanitizeMol (RemoveBond (Kekulize state) (GetBeginAtomIdx bond)
                   (GetEndAtomIdx bond)) = Some new_state /\
    s ∈ split_dot (MolToSmiles new_state).
Proof.
  intros Hbond Ho Hc.
  rewrite (bond_removal_candidate_cases _ _ _ _ Hbond), Ho in Hc.
  rewrite Nat.ltb_irrefl, Nat.eqb_refl in Hc.
  destruct (SanitizeMol _) as [new_state|] eqn:Hs; [|discriminate].
  destruct (largest_fragment_returns (MolToSmiles new_state))
    as (c & Hfrag & Hin).
  rewrite Hfrag in Hc. injection Hc as ->.
  destruct (Hin s eq_refl) as [Hmember Hdot].
  split; [exact Hdot|]. by exists new_state.
Qed.

Lemma bond_removal_candidate_returns (state : Mol) (valence : nat) (b : Bond) :
  GetBondBetweenAtoms state (GetBeginAtomIdx b) (GetEndAtomIdx b) <> None ->
  exists c, bond_removal_candidate state valence b = Ok c.
Proof.
  intros Hfound.
  destruct (GetBondBetweenAtoms state (GetBeginAtomIdx b) (GetEndAtomIdx b))
    as [bond|] eqn:Hbond; [|done].
  rewrite (bond_removal_candidate_cases _ _ _ _ Hbond).
  destruct (list_index _ bond_orders) as [o|] eqn:Ho; [|by eauto].
  pose proof (standard_order _ _ Ho) as Hstd.
  destruct (Nat.ltb_spec valence o).
  - destruct (bond_orders_at_defined (o - valence)) as [t ->]; [lia|].
    simpl. eauto.
  - destruct (valence =? o)%nat; [|by eauto].
    destruct (SanitizeMol _); [|by eauto].
    destruct (largest_fragment_returns (MolToSmiles m)) as (c & -> & _).
    eauto.
Qed.

Lemma bond_removal_total (state : Mol) :
  bonds_found state -> exists R, _bond_removal state = Ok R.
Proof.
  intros Hfound. unfold _bond_removal.
  apply for_each_total. intros valence acc _.
  apply for_each_total. intros b acc' Hb.
  destruct (bond_removal_candidate_returns state valence b) as [c ->];
    [by apply Hfound|].
  simpl. eauto.
Qed.

(** X9. Bond removal cannot raise on a molecule whose listed bonds are all
    found between their end atoms: it returns a set. *)
Theorem bond_removal_returns (state : Mol) :
  bonds_found state -> exists R, _bond_removal state = Ok R.
Proof.
  intros Hfound. unfold _bond_removal.
  apply for_each_total. intros valence acc _.
  apply for_each_total. intros b acc' Hb.
  destruct (bond_removal_candidate_returns state valence b) as [c ->];
    [by apply Hfound|].
  simpl. eauto.
Qed.

Lemma bond_addition_candidate_returns
    (state : Mol) (sizes : option (gset nat)) (allow : bool)
    (valence atom1 atom2 : nat) :
  (1 <= valence <= 3)%nat ->
  exists c, bond_addition_candidate state sizes allow valence atom1 atom2 = Ok c.
Proof.
  intros Hv.
  destruct (GetBondBetweenAtoms state atom1 atom2) as [bond|] eqn:Hbond.
  - rewrite (bond_addition_candidate_existing _ _ _ _ _ _ _ Hbond).
    destruct (list_index _ bond_orders) as [o|] eqn:Ho; [|by eauto].
    pose proof (standard_order _ _ Ho) as Hstd.
    destruct (Nat.leb_spec (o + valence) 3); [|by eauto].
    destruct (bond_orders_at_defined (o + valence)) as [t ->]; [lia|].
    simpl. eauto.
  - unfold bond_addition_candidate. rewrite Hbond.
    destruct (between_rings_forbidden _ _ _ _); [by eauto|].
    destruct (ring_size_forbidden _ _ _ _); [by eauto|].
    destruct (bond_orders_at_defined valence Hv) as [t ->]. simpl. eauto.
Qed.

Lemma bond_addition_total
    (mol : Mol) (max_valence : nat) (allowed_ring_sizes : option (gset nat))
    (allow_bonds_between_rings : bool) :
  (max_valence <= 4)%nat ->
  exists R,
    _bond_addition mol (free_valence_map mol max_valence) allowed_ring_sizes
      allow_bonds_between_rings = Ok R.
Proof.
  intros Hmax. unfold _bond_addition.
  apply for_each_total. intros [valence atoms] acc Hlevel.
  apply free_valence_map_levels in Hlevel as [Hv _].
  apply for_each_total. intros [atom1 atom2] acc' _.
  destruct (bond_addition_candidate_returns mol allowed_ring_sizes
              allow_bonds_between_rings valence atom1 atom2) as [c ->]; [lia|].
  simpl. eauto.
Qed.

(** X10. When no atom type has a valence above 4, the free-valence map
    stops at level 3 and bond addition cannot raise: it returns a set,
    whatever the molecule and the ring options. *)
Theorem bond_addition_returns
    (mol : Mol) (max_valence : nat) (allowed_ring_sizes : option (gset nat))
    (allow_bonds_between_rings : bool) :
  (max_valence <= 4)%nat ->
  exists R,
    _bond_addition mol (free_valence_map mol max_valence) allowed_ring_sizes
      allow_bonds_between_rings = Ok R.
Proof.
  intros Hmax. unfold _bond_addition.
  apply for_each_total. intros [valence atoms] acc Hlevel.
  apply free_valence_map_levels in Hlevel as [Hv _].
  apply for_each_total. intros [atom1 atom2] acc' _.
  destruct (bond_addition_candidate_returns mol allowed_ring_sizes
              allow_bonds_between_rings valence atom1 atom2) as [c ->]; [lia|].
  simpl. eauto.
Qed.

End BondOrders.

Section WholeEnumeration.
Context `{Chem}.

Lemma atom_addition_returns (mol : Mol) (types : list string)
    (max_valence : nat) :
  (4 <= max_valence)%nat ->
  exists R,
    _atom_addition mol types (map (fun t => (t, atom_valences t)) types)
      (free_valence_map mol max_valence) = Ok R.
Proof.
  intros Hmax. unfold _atom_addition, bond_orders_dict. cbn [for_each].
  rewrite !free_valence_map_get.
  assert ((1 <? max_valence)%nat = true) as -> by (apply Nat.ltb_lt; lia).
  assert ((2 <? max_valence)%nat = true) as -> by (apply Nat.ltb_lt; lia).
  assert ((3 <? max_valence)%nat = true) as -> by (apply Nat.ltb_lt; lia).
  cbn [Nat.leb andb bind].
  destruct (atom_addition_level_returns mol types 1 SINGLE
              (filter (fun atom => (1 <= GetNumImplicitHs mol atom)%nat)
                 (GetAtoms mol)) ∅) as [R1 ->].
  destruct (atom_addition_level_returns mol types 2 DOUBLE
              (filter (fun atom => (2 <= GetNumImplicitHs mol atom)%nat)
                 (GetAtoms mol)) R1) as [R2 ->].
  destruct (atom_addition_level_returns mol types 3 TRIPLE
              (filter (fun atom => (3 <= GetNumImplicitHs mol atom)%nat)
                 (GetAtoms mol)) R2) as [R3 ->].
  by exists R3.
Qed.

(** The enumeration of a state that parses, family by family. *)
Lemma get_valid_actions_parsed
    (state : string) (mol : Mol) (atom_types : gset string)
    (allow_removal allow_no_modification : bool)
    (allowed_ring_sizes : option (gset nat))
    (allow_bonds_between_rings : bool) :
  state <> EmptyString ->
  MolFromSmiles state = Some mol ->
  get_valid_actions (Some state) atom_types allow_removal
    allow_no_modification allowed_ring_sizes allow_bonds_between_rings =
    (max_valence <- max_valence_of atom_types ;;
     let levels := free_valence_map mol max_valence in
     added <- _atom_addition mol (elements atom_types)
                (map (fun t => (t, atom_valences t)) (elements atom_types))
                levels ;;
     bonded <- _bond_addition mol levels allowed_ring_sizes
                 allow_bonds_between_rings ;;
     valid_actions <-
       (if allow_removal
        then (removed <- _bond_removal mol ;; Ok (added ∪ bonded ∪ removed))
        else Ok (added ∪ bonded)) ;;
     Ok (if allow_no_modification
         then valid_actions ∪ {[ MolToSmiles mol ]}
         else valid_actions))%py.
Proof.
  intros Hne Hparse. unfold get_valid_actions, falsy, max_valence_of.
  apply String.eqb_neq in Hne as ->. simpl default. rewrite Hparse.
  by rewrite map_map.
Qed.

(** X11. When the largest valence of the atom types is exactly 4, as for
    carbon, nitrogen and oxygen, the enumeration of a non-empty state that
    parses returns a set; bond removal, when allowed, needs the listed bonds
    to be found.  With the no-modification option the serialization of the
    parsed molecule is in that set. *)
Theorem get_valid_actions_returns
    (state : string) (mol : Mol) (atom_types : gset string)
    (allow_removal allow_no_modification : bool)
    (allowed_ring_sizes : option (gset nat))
    (allow_bonds_between_rings : bool) :
  state <> EmptyString ->
  MolFromSmiles state = Some mol ->
  max_valence_of atom_types = Ok 4%nat ->
  (allow_removal = true -> bonds_found mol) ->
  exists R,
    get_valid_actions (Some state) atom_types allow_removal
      allow_no_modification allowed_ring_sizes allow_bonds_between_rings
    = Ok R /\
    (allow_no_modification = true -> MolToSmiles mol ∈ R).
Proof.
  intros Hne Hparse Hmax Hfound.
  rewrite (get_valid_actions_parsed _ _ _ _ _ _ _ Hne Hparse), Hmax.
  cbn [bind].
  destruct (atom_addition_returns mol (elements atom_types) 4) as [A ->];
    [lia|].
  destruct (bond_addition_total mol 4 allowed_ring_sizes
              allow_bonds_between_rings) as [B ->]; [lia|].
  cbn [bind]. destruct allow_removal.
  - destruct (bond_removal_total mol (Hfound eq_refl)) as [C ->].
    cbn [bind]. eexists. split; [reflexivity|].
    intros ->. set_solver.
  - cbn [bind]. eexists. split; [reflexivity|].
    intros ->. set_solver.
Qed.

Lemma bond_addition_candidate_sanitized
    (state : Mol) (sizes : option (gset nat)) (allow : bool)
    (valence atom1 atom2 : nat) (s : string) :
  bond_addition_candidate state sizes allow valence atom1 atom2 = Ok (Some s) ->
  exists candidate new_state,
    SanitizeMol candidate = Some new_state /\ s = MolToSmiles new_state.
Proof.
  destruct (GetBondBetweenAtoms state atom1 atom2) as [bond|] eqn:Hbond.
  - rewrite (bond_addition_candidate_existing _ _ _ _ _ _ _ Hbond).
    destruct (list_index _ bond_orders) as [o|]; [|discriminate].
    destruct (o + valence <=? 3)%nat; [|discriminate].
    destruct (bond_orders_at (o + valence)) as [t|e]; [|discriminate].
    simpl. unfold sanitized_smiles.
    destruct (SanitizeMol _) as [new_state|] eqn:Hs; [|discriminate].
    intros [= <-]. eauto.
  - unfold bond_addition_candidate. rewrite Hbond.
    destruct (between_rings_forbidden _ _ _ _); [discriminate|].
    destruct (ring_size_forbidden _ _ _ _); [discriminate|].
    destruct (bond_orders_at valence) as [t|e]; [|discriminate].
    simpl. unfold sanitized_smiles.
    destruct (SanitizeMol _) as [new_state|] eqn:Hs; [|discriminate].
    intros [= <-]. eauto.
Qed.

Lemma bond_removal_candidate_sanitized
    (state : Mol) (valence : nat) (b : Bond) (s : string) :
  bond_removal_candidate state valence b = Ok (Some s) ->
  exists candidate new_state,
    SanitizeMol candidate = Some new_state /\
    (s = MolToSmiles new_state \/ s ∈ split_dot (MolToSmiles new_state)).
Proof.
  destruct (GetBondBetweenAtoms state (GetBeginAtomIdx b) (GetEndAtomIdx b))
    as [bond|] eqn:Hbond.
  2:{ unfold bond_removal_candidate. by rewrite Hbond. }
  rewrite (bond_removal_candidate_cases _ _ _ _ Hbond).
  destruct (list_index _ bond_orders) as [o|]; [|discriminate].
  destruct (valence <? o)%nat.
  - destruct (bond_orders_at (o - valence)) as [t|e]; [|discriminate].
    simpl. unfold sanitized_smiles.
    destruct (SanitizeMol _) as [new_state|] eqn:Hs; [|discriminate].
    intros [= <-]. eauto.
  - destruct (valence =? o)%nat; [|discriminate].
    destruct (SanitizeMol _) as [new_state|] eqn:Hs; [|discriminate].
    destruct (largest_fragment_returns (MolToSmiles new_state))
      as (c & -> & Hin).
    intros [= ->]. destruct (Hin s eq_refl) as [Hmember _]. eauto.
Qed.

(** X12. Every string the enumerator returns for a state that parses has
    passed the sanitizer: it is the serialization of a sanitized molecule,
    or, when removal is allowed, one fragment of such a serialization, or,
    with the no-modification option, the serialization of the parsed
    molecule itself. *)
Theorem every_action_is_sanitized
    (state : string) (mol : Mol) (atom_types : gset string)
    (allow_removal allow_no_modification : bool)
    (allowed_ring_sizes : option (gset nat))
    (allow_bonds_between_rings : bool) (R : gset string) :
  state <> EmptyString ->
  MolFromSmiles state = Some mol ->
  get_valid_actions (Some state) atom_types allow_removal
    allow_no_modification allowed_ring_sizes allow_bonds_between_rings
  = Ok R ->
  forall s, s ∈ R ->
    (allow_no_modification = true /\ s = MolToSmiles mol) \/
    exists candidate new_state,
      SanitizeMol candidate = Some new_state /\
      (s = MolToSmiles new_state \/
       (allow_removal = true /\ s ∈ split_dot (MolToSmiles new_state))).
Proof.
  intros Hne Hparse HR s Hs.
  rewrite (get_valid_actions_parsed _ _ _ _ _ _ _ Hne Hparse) in HR.
  destruct (max_valence_of atom_types) as [max_valence|e]; [|discriminate].
  cbn [bind] in HR.
  destruct (_atom_addition _ _ _ _) as [A|e] eqn:HA; [|discriminate].
  destruct (_bond_addition _ _ _ _) as [B|e] eqn:HB; [|discriminate].
  cbn [bind] in HR.
  assert (Hfamilies : s ∈ A \/ s ∈ B
            \/ (allow_removal = true /\
                exists C, _bond_removal mol = Ok C /\ s ∈ C)
            \/ (allow_no_modification = true /\ s = MolToSmiles mol)).
  { assert (Hlast : forall X : gset string,
              s ∈ (if allow_no_modification
                   then X ∪ {[ MolToSmiles mol ]} else X) ->
              s ∈ X \/ (allow_no_modification = true /\ s = MolToSmiles mol)).
    { intros X. destruct allow_no_modification; [|by left].
      rewrite elem_of_union, elem_of_singleton. intros [HX| ->]; [by left|].
      by right. }
    destruct allow_removal.
    - destruct (_bond_removal mol) as [C|e] eqn:HC; [|discriminate].
      cbn [bind] in HR. injection HR as <-.
      apply Hlast in Hs as [Hs|Hs]; [|by do 3 right].
      rewrite !elem_of_union in Hs. destruct Hs as [[Hs|Hs]|Hs];
        [by left|by right; left|].
      right. right. left. split; [reflexivity|]. by exists C.
    - cbn [bind] in HR. injection HR as <-.
      apply Hlast in Hs as [Hs|Hs]; [|by do 3 right].
      rewrite elem_of_union in Hs. destruct Hs as [Hs|Hs];
        [by left|by right; left]. }
  destruct Hfamilies as [Hin|[Hin|[[Hrem (C & HC & Hin)]|Hsame]]].
  - right. apply (atom_addition_members _ _ _ _ _ HA) in Hin
      as (i & bt & atoms & atom & element & _ & _ & _ & He & Hc).
    rewrite atom_addition_candidate_table in Hc by done.
    destruct (i <=? atom_valences element)%nat; [|discriminate].
    unfold sanitized_smiles in Hc.
    destruct (SanitizeMol _) as [new_state|] eqn:Hsan; [|discriminate].
    injection Hc as <-. eauto.
  - right. apply (bond_addition_members _ _ _ _ _ HB) in Hin
      as (v & atoms & a1 & a2 & _ & _ & Hc).
    apply bond_addition_candidate_sanitized in Hc
      as (candidate & new_state & Hsan & ->). eauto.
  - right. apply (bond_removal_members _ _ HC) in Hin
      as (v & b & _ & _ & Hc).
    apply bond_removal_candidate_sanitized in Hc
      as (candidate & new_state & Hsan & [->|Hfrag]); eauto 7.
  - by left.
Qed.

End WholeEnumeration.

(** ** Pairs of atoms *)

Lemma combinations2_members {A} (l : list A) (a b : A) :
  (a, b) ∈ combinations2 l -> a ∈ l /\ b ∈ l.
Proof.
  induction l as [|x t IH]; simpl; intros Hin; [by apply elem_of_nil in Hin|].
  apply elem_of_app in Hin as [Hin|Hin].
  - apply list_elem_of_fmap in Hin as (y & [= -> ->] & Hy).
    split; [by left|by right].
  - destruct (IH Hin). split; by right.
Qed.

Lemma combinations2_once {A} (l : list A) (a b : A) :
  NoDup l -> (a, b) ∈ combinations2 l ->
  a <> b /\ (b, a) ∉ combinations2 l.
Proof.
  induction l as [|x t IH]; simpl; intros Hnd Hin;
    [by apply elem_of_nil in Hin|].
  apply NoDup_cons in Hnd as [Hx Hnd].
  apply elem_of_app in Hin as [Hin|Hin].
  - apply list_elem_of_fmap in Hin as (y & [= -> ->] & Hy). split.
    + intros ->. contradiction.
    + intros Hrev. apply elem_of_app in Hrev as [Hrev|Hrev].
      * apply list_elem_of_fmap in Hrev as (z & [= -> ->] & Hz). contradiction.
      * apply combinations2_members in Hrev as [_ Hrev]. contradiction.
  - destruct (IH Hnd Hin) as [Hne Hrev]. split; [exact Hne|].
    intros Hrev'. apply elem_of_app in Hrev' as [Hrev'|Hrev']; [|contradiction].
    apply list_elem_of_fmap in Hrev' as (z & [= -> ->] & Hz).
    apply combinations2_members in Hin as [_ Hin]. contradiction.
Qed.

Lemma combinations2_covers {A} (l : list A) (a b : A) :
  a ∈ l -> b ∈ l -> a <> b ->
  (a, b) ∈ combinations2 l \/ (b, a) ∈ combinations2 l.
Proof.
  induction l as [|x t IH]; simpl; intros Ha Hb Hne;
    [by apply elem_of_nil in Ha|].
  apply elem_of_cons in Ha as [->|Ha]; apply elem_of_cons in Hb as [->|Hb].
  - done.
  - left. apply elem_of_app. left. by apply list_elem_of_fmap_2.
  - right. apply elem_of_app. left. by apply list_elem_of_fmap_2.
  - destruct (IH Ha Hb Hne); [left|right]; apply elem_of_app; by right.
Qed.

Section Pairs.
Context `{Chem}.

(** X13. On a molecule whose atom indices are distinct, the pairs that bond
    addition tries at a level are exactly the unordered pairs of distinct
    atoms with at least that many implicit hydrogens each: no atom is paired
    with itself, no pair is tried in both orders, and none is left out. *)
Theorem bond_addition_pairs
    (mol : Mol) (max_valence valence : nat) (atoms : list nat) :
  NoDup (GetAtoms mol) ->
  (valence, atoms) ∈ free_valence_map mol max_valence ->
  (forall atom1 atom2, (atom1, atom2) ∈ combinations2 atoms ->
     atom1 <> atom2 /\ ((atom2, atom1) ∉ combinations2 atoms) /\
     atom1 ∈ GetAtoms mol /\ atom2 ∈ GetAtoms mol /\
     (valence <= GetNumImplicitHs mol atom1)%nat /\
     (valence <= GetNumImplicitHs mol atom2)%nat) /\
  (forall atom1 atom2,
     atom1 ∈ GetAtoms mol -> atom2 ∈ GetAtoms mol -> atom1 <> atom2 ->
     (valence <= GetNumImplicitHs mol atom1)%nat ->
     (valence <= GetNumImplicitHs mol atom2)%nat ->
     (atom1, atom2) ∈ combinations2 atoms \/ (atom2, atom1) ∈ combinations2 atoms).
Proof.
  intros Hnd Hlevel. apply free_valence_map_levels in Hlevel as [_ ->].
  split.
  - intros atom1 atom2 Hpair.
    assert (Hnd' : NoDup (filter (fun atom =>
                       (valence <= GetNumImplicitHs mol atom)%nat)
                            (GetAtoms mol))) by by apply NoDup_filter.
    destruct (combinations2_once _ _ _ Hnd' Hpair) as [Hne Hrev].
    apply combinations2_members in Hpair as [H1 H2].
    apply list_elem_of_filter in H1 as [Hfree1 H1].
    apply list_elem_of_filter in H2 as [Hfree2 H2].
    done.
  - intros atom1 atom2 H1 H2 Hne Hfree1 Hfree2.
    apply combinations2_covers; [by apply list_elem_of_filter..|exact Hne].
Qed.

End Pairs.

(** * Further properties of the environment *)

Section Frames.
Context `{Chem}.

Lemma enumerate_configuration (a b : Molecule.t) (state : option string) :
  configuration a = configuration b -> enumerate a state = enumerate b state.
Proof.
  unfold configuration, enumerate. intros [= _ -> -> -> -> -> _ _ _ _ _].
  reflexivity.
Qed.

Lemma initialize_cases (self : Molecule.t) :
  Molecule.initialize self =
    let started :=
      let self := Molecule.set_state (Molecule.init_mol self) self in
      if Molecule.record_path self
      then Molecule.set_path [Molecule.init_mol self] self else self in
    match enumerate self (Molecule.init_mol self) with
    | Ok actions =>
        (Molecule.set_counter 0 (Molecule.set_valid_actions actions started),
         Ok tt)
    | Raise e => (started, Raise e)
    end.
Proof.
  unfold Molecule.initialize. rewrite get_valid_actions_forced, rebuild_spec.
  destruct self as [? ? ? ? ? ? ? ? ? ? ? recording ? ? ?].
  unfold enumerate. simpl.
  destruct recording; simpl;
    match goal with |- context [get_valid_actions ?s ?a ?b ?c ?d ?e] =>
      destruct (get_valid_actions s a b c d e) end; reflexivity.
Qed.

Lemma get_valid_actions_cases (self : Molecule.t) (state : Molecule.pystate)
    (force_rebuild : bool) :
  Molecule.get_valid_actions state force_rebuild self
  = (self, Ok (Molecule._valid_actions self)) \/
  exists target,
    Molecule.get_valid_actions state force_rebuild self =
      match enumerate self target with
      | Ok actions => (Molecule.set_valid_actions actions self, Ok actions)
      | Raise e => (self, Raise e)
      end.
Proof.
  unfold Molecule.get_valid_actions.
  destruct state as [|s|m]; [|right; eexists; apply rebuild_spec..].
  destruct (_ && _); [by left|]. right. eexists. apply rebuild_spec.
Qed.

Lemma set_valid_actions_same (self : Molecule.t) :
  Molecule.set_valid_actions (Molecule._valid_actions self) self = self.
Proof. by destruct self. Qed.

Lemma step_configuration (self : Molecule.t) (action : string) :
  configuration (Molecule.step action self).1 = configuration self.
Proof.
  destruct (Molecule.is_terminated self) eqn:Ht.
  { by rewrite step_terminated. }
  destruct (decide (action ∈ Molecule._valid_actions self)) as [Hin|Hout].
  2:{ by rewrite step_refused. }
  rewrite (step_accepted _ _ Ht Hin).
  destruct self as [? ? ? ? ? ? ? ? ? ? ? recording ? ? ?].
  unfold enumerate. simpl.
  destruct recording; simpl;
    match goal with |- context [get_valid_actions ?s ?a ?b ?c ?d ?e] =>
      destruct (get_valid_actions s a b c d e) end; reflexivity.
Qed.

Lemma perform_any_configuration (self : Molecule.t) (c : any_call) :
  configuration (perform_any c self) = configuration self.
Proof.
  destruct c as [|[action|state force]]; simpl.
  - rewrite initialize_cases.
    destruct self as [? ? ? ? ? ? ? ? ? ? ? recording ? ? ?].
    unfold enumerate. simpl.
    destruct recording; simpl;
      match goal with |- context [get_valid_actions ?s ?a ?b ?c ?d ?e] =>
        destruct (get_valid_actions s a b c d e) end; reflexivity.
  - apply step_configuration.
  - destruct (get_valid_actions_cases self state force) as [->|[target ->]];
      [reflexivity|].
    by destruct (enumerate self target).
Qed.

(** X14. No call changes what the constructor's arguments set: the initial
    molecule, the atom types, the three options, the allowed ring sizes, the
    step budget, the goal hook, the recording flag and the two bond tables
    are the same after any sequence of [initialize], [step] and
    [get_valid_actions] calls, whether they return or raise. *)
Theorem configuration_is_kept (calls : list any_call) (self : Molecule.t) :
  configuration (run_any calls self) = configuration self.
Proof.
  revert self. induction calls as [|c calls IH]; intros self; [reflexivity|].
  simpl. rewrite IH. apply perform_any_configuration.
Qed.

Lemma perform_any_path (self : Molecule.t) (c : any_call) :
  Molecule.record_path self = false ->
  Molecule._path (perform_any c self) = Molecule._path self.
Proof.
  intros Hrec. destruct c as [|[action|state force]]; simpl.
  - rewrite initialize_cases.
    destruct self as [? ? ? ? ? ? ? ? ? ? ? recording ? ? ?].
    unfold enumerate. simpl in *. subst recording. simpl.
    match goal with |- context [get_valid_actions ?s ?a ?b ?c ?d ?e] =>
      destruct (get_valid_actions s a b c d e) end; reflexivity.
  - destruct (Molecule.is_terminated self) eqn:Ht.
    { by rewrite step_terminated. }
    destruct (decide (action ∈ Molecule._valid_actions self)) as [Hin|Hout].
    2:{ by rewrite step_refused. }
    rewrite (step_accepted _ _ Ht Hin).
    destruct self as [? ? ? ? ? ? ? ? ? ? ? recording ? ? ?].
    unfold enumerate. simpl in *. subst recording. simpl.
    match goal with |- context [get_valid_actions ?s ?a ?b ?c ?d ?e] =>
      destruct (get_valid_actions s a b c d e) end; reflexivity.
  - destruct (get_valid_actions_cases self state force) as [->|[target ->]];
      [reflexivity|].
    by destruct (enumerate self target).
Qed.

(** X15. Without path recording the path is never written: after any
    sequence of calls [get_path] is what it was, so it stays empty on an
    environment built without recording. *)
Theorem path_untouched_without_recording
    (calls : list any_call) (self : Molecule.t) :
  Molecule.record_path self = false ->
  Molecule.get_path (run_any calls self) = Molecule.get_path self.
Proof.
  unfold Molecule.get_path. revert self.
  induction calls as [|c calls IH]; intros self Hrec; [reflexivity|].
  simpl. rewrite IH.
  - by apply perform_any_path.
  - pose proof (perform_any_configuration self c) as Hcfg.
    unfold configuration in Hcfg. injection Hcfg as _ _ _ _ _ _ _ _ Hsame _ _.
    by rewrite Hsame.
Qed.

(** X16. [get_valid_actions] writes nothing but the cache: when it returns a
    set, the object is the one before the call with that set as its cache;
    when it raises, the object is unchanged. *)
Theorem get_valid_actions_writes_cache_only
    (self self' : Molecule.t) (state : Molecule.pystate)
    (force_rebuild : bool) (r : result (gset string)) :
  Molecule.get_valid_actions state force_rebuild self = (self', r) ->
  match r with
  | Ok actions => self' = Molecule.set_valid_actions actions self
  | Raise _ => self' = self
  end.
Proof.
  intros Hcall.
  destruct (get_valid_actions_cases self state force_rebuild)
    as [Hcached|[target Hbuilt]].
  - rewrite Hcached in Hcall. injection Hcall as <- <-.
    by rewrite set_valid_actions_same.
  - rewrite Hbuilt in Hcall.
    destruct (enumerate self target); by injection Hcall as <- <-.
Qed.

End Frames.

Section Lifecycle.
Context `{Chem}.

(** X17. When the enumeration for the initial molecule returns,
    [initialize] returns from any object, terminated or not: the state is
    the initial molecule, the counter is 0, the cache is the enumerated set,
    the path is reset to the initial molecule when recording, and the
    episode is terminated afterwards only if the step budget is not positive
    or the goal already holds on the initial molecule. *)
Theorem initialize_resets (self : Molecule.t) (actions : gset string) :
  enumerate self (Molecule.init_mol self) = Ok actions ->
  exists self',
    Molecule.initialize self = (self', Ok tt) /\
    Molecule.state self' = Molecule.init_mol self /\
    Molecule.num_steps_taken self' = 0 /\
    Molecule._valid_actions self' = actions /\
    Molecule.get_path self' =
      (if Molecule.record_path self
       then [Molecule.init_mol self] else Molecule.get_path self) /\
    configuration self' = configuration self /\
    (Molecule.is_terminated self' = true <->
       Molecule.max_steps self <= 0 \/
       exists target_fn,
         Molecule._target_fn self = Some target_fn /\
         target_fn (Molecule.init_mol self) = true).
Proof.
  intros Hen. rewrite initialize_cases, Hen. eexists. split; [reflexivity|].
  destruct self as [? ? ? ? ? ? ? ? ? ? goal recording ? ? ?].
  unfold Molecule.is_terminated, Molecule._goal_reached.
  destruct recording; simpl; (do 5 (split; [reflexivity|]));
    rewrite orb_true_iff, Z.leb_le; (split; intros [Hle|Hgoal]; [by left| |by left|]);
    right; destruct goal as [target_fn|]; try done; try (by eauto);
    by destruct Hgoal as (f & [= <-] & Hf).
Qed.

(** X18. When the enumeration for the initial molecule raises,
    [initialize] raises the same exception after it has set the state, and
    the path when recording, and before it resets the counter: the counter
    and the cache are what they were, so an environment that was never
    initialized stays terminated. *)
Theorem initialize_failure (self : Molecule.t) (e : exn) :
  enumerate self (Molecule.init_mol self) = Raise e ->
  exists self',
    Molecule.initialize self = (self', Raise e) /\
    Molecule.state self' = Molecule.init_mol self /\
    Molecule.num_steps_taken self' = Molecule.num_steps_taken self /\
    Molecule._valid_actions self' = Molecule._valid_actions self /\
    Molecule.get_path self' =
      (if Molecule.record_path self
       then [Molecule.init_mol self] else Molecule.get_path self) /\
    (Molecule.max_steps self <= Molecule.num_steps_taken self ->
     forall action,
       Molecule.step action self' = (self', Raise EpisodeTerminatedError)).
Proof.
  intros Hen. rewrite initialize_cases, Hen. eexists. split; [reflexivity|].
  destruct self as [? ? ? ? ? ? ? ? ? ? goal recording ? ? ?].
  destruct recording; simpl; (do 4 (split; [reflexivity|]));
    intros Hle action; apply step_terminated;
    unfold Molecule.is_terminated; simpl;
    apply Z.leb_le in Hle; by rewrite Hle.
Qed.

Lemma steps_counter (actions : list string) :
  forall self self', steps actions self = Some self' ->
    Molecule._counter self' = Molecule._counter self + Z.of_nat (length actions) /\
    configuration self' = configuration self /\
    (actions <> [] -> Molecule._counter self' <= Molecule.max_steps self) /\
    (enumerate self (Molecule._state self) = Ok (Molecule._valid_actions self) ->
     enumerate self' (Molecule._state self') = Ok (Molecule._valid_actions self')).
Proof.
  induction actions as [|a actions IH]; simpl; intros self self' Hs.
  - injection Hs as <-. split; [lia|]. done.
  - destruct (Molecule.step a self) as [self1 [r|e]] eqn:Hstep; [|discriminate].
    pose proof (step_configuration self a) as Hcfg. rewrite Hstep in Hcfg.
    simpl in Hcfg.
    apply step_returns in Hstep
      as (Ht & _ & Hstate & _ & _ & Hcount & Hmax & _ & Hen & _).
    destruct (IH _ _ Hs) as (Hcount' & Hcfg' & Hbound & Hcoherent).
    unfold Molecule.is_terminated in Ht. apply orb_false_iff in Ht as [Ht _].
    apply Z.leb_gt in Ht.
    split; [lia|]. split; [by rewrite Hcfg'|]. split.
    + intros _. destruct actions as [|b actions].
      * simpl in Hs. injection Hs as <-. lia.
      * rewrite <- Hmax. by apply Hbound.
    + intros _. apply Hcoherent.
      rewrite Hstate, (enumerate_configuration self1 self) by done. exact Hen.
Qed.

(** X19. After [initialize] and any number of [step] calls that all return,
    the cache is the enumeration of the current state, and
    [get_valid_actions()] returns it and leaves the object as it is, with or
    without [force_rebuild]. *)
Theorem cache_follows_state
    (self0 self1 self2 : Molecule.t) (actions : list string) :
  Molecule.initialize self0 = (self1, Ok tt) ->
  steps actions self1 = Some self2 ->
  enumerate self2 (Molecule.state self2) = Ok (Molecule._valid_actions self2) /\
  (forall force_rebuild,
     Molecule.get_valid_actions Molecule.PyNone force_rebuild self2
     = (self2, Ok (Molecule._valid_actions self2))).
Proof.
  intros Hinit Hsteps.
  assert (Hfirst : enumerate self1 (Molecule._state self1)
                   = Ok (Molecule._valid_actions self1)).
  { rewrite initialize_cases in Hinit.
    destruct (enumerate self0 (Molecule.init_mol self0)) as [acts|e] eqn:Hen;
      [|discriminate].
    injection Hinit as <-.
    destruct self0 as [? ? ? ? ? ? ? ? ? ? ? [] ? ? ?]; exact Hen. }
  destruct (steps_counter _ _ _ Hsteps) as (_ & _ & _ & Hcoherent).
  specialize (Hcoherent Hfirst). split; [exact Hcoherent|].
  intros force_rebuild. unfold Molecule.get_valid_actions.
  destruct (_ && _); [reflexivity|].
  unfold Molecule.state in Hcoherent.
  by rewrite rebuild_spec, Hcoherent, set_valid_actions_same.
Qed.


End Lifecycle.

(** ** The further properties on the small backend *)

Section FurtherExamples.
#[local] Existing Instance MiniChem.chem.

Ltac evaluated := apply (bool_decide_unpack _); vm_compute; exact I.

Lemma atom_addition_actions_witness :
  _atom_addition (mol_of "C") ["C"; "N"; "O"]
    (map (fun t => (t, atom_valences t)) ["C"; "N"; "O"])
    (free_valence_map (mol_of "C") 4) = Ok atom_additions_of_methane /\
  exists i bt atom element new_state,
    (i, bt) ∈ bond_orders_dict /\
    atom ∈ GetAtoms (mol_of "C") /\
    (i <= GetNumImplicitHs (mol_of "C") atom)%nat /\
    element ∈ ["C"; "N"; "O"] /\ (i <= atom_valences element)%nat /\
    SanitizeMol (AddBond (AddAtom (mol_of "C") element).1 atom
                   (AddAtom (mol_of "C") element).2 bt) = Some new_state /\
    "C#N" = MolToSmiles new_state.
Proof.
  assert (HR : _atom_addition (mol_of "C") ["C"; "N"; "O"]
                 (map (fun t => (t, atom_valences t)) ["C"; "N"; "O"])
                 (free_valence_map (mol_of "C") 4)
               = Ok atom_additions_of_methane) by (by vm_compute).
  split; [exact HR|].
  apply (atom_addition_actions (mol_of "C") ["C"; "N"; "O"] 4
           atom_additions_of_methane HR "C#N").
  evaluated.
Defined.

Lemma get_valid_actions_low_valence_witness :
  "O" <> EmptyString /\
  MolFromSmiles "O" = Some water /\
  max_valence_of {[ "O" ]} = Ok 2%nat /\
  (2 <= 3)%nat /\
  get_valid_actions (Some "O") {[ "O" ]} true true None true
  = Raise (KeyError (KInt 2)).
Proof.
  assert (Hmax : max_valence_of ({[ "O" ]} : gset string) = Ok 2%nat)
    by (by vm_compute).
  split; [discriminate|]. split; [reflexivity|]. split; [exact Hmax|].
  split; [lia|].
  apply (get_valid_actions_low_valence "O" water {[ "O" ]} 2 true true None true);
    [discriminate|reflexivity|exact Hmax|lia].
Defined.

Lemma get_valid_actions_no_atom_types_witness :
  "C" <> EmptyString /\
  MolFromSmiles "C" = Some (mol_of "C") /\
  get_valid_actions (Some "C") ∅ true true None true
  = Raise (ValueError "max() arg is an empty sequence").
Proof.
  split; [discriminate|]. split; [reflexivity|].
  apply (get_valid_actions_no_atom_types "C" (mol_of "C") true true None true);
    [discriminate|reflexivity].
Defined.

(** The single bond of ethane can be raised by 1 and by 2, not by 3. *)
Lemma bond_addition_raises_order_witness :
  GetBondBetweenAtoms ethane 0 1 = Some (mkBond 0 0 1 SINGLE) /\
  bond_addition_candidate ethane None true 3 0 1 = Ok None /\
  exists t,
    list_index (Some t) bond_orders = Some 3%nat /\
    bond_addition_candidate ethane None true 2 0 1 =
      Ok (sanitized_smiles
            (ReplaceBond (Kekulize ethane) 0
               (SetBondType (mkBond 0 0 1 SINGLE) t))).
Proof.
  split; [reflexivity|].
  destruct (bond_addition_raises_order ethane None true 3 0 1
              (mkBond 0 0 1 SINGLE) eq_refl) as (_ & Hthree & _).
  destruct (bond_addition_raises_order ethane None true 2 0 1
              (mkBond 0 0 1 SINGLE) eq_refl) as (_ & Htwo & _).
  split.
  - apply (Hthree 1%nat eq_refl). lia.
  - apply (Htwo 1%nat eq_refl). lia.
Defined.

(** The double bond of ethene is lowered to a single bond by 1. *)
Lemma bond_removal_lowers_order_witness :
  GetBondBetweenAtoms ethene 0 1 = Some (mkBond 0 0 1 DOUBLE) /\
  bond_removal_candidate ethene 3 (mkBond 0 0 1 DOUBLE) = Ok None /\
  exists t,
    list_index (Some t) bond_orders = Some 1%nat /\
    bond_removal_candidate ethene 1 (mkBond 0 0 1 DOUBLE) =
      Ok (sanitized_smiles
            (ReplaceBond (Kekulize ethene) 0
               (SetBondType (mkBond 0 0 1 DOUBLE) t))).
Proof.
  split; [reflexivity|].
  destruct (bond_removal_lowers_order ethene 3 (mkBond 0 0 1 DOUBLE)
              (mkBond 0 0 1 DOUBLE) eq_refl) as (_ & Hthree).
  destruct (bond_removal_lowers_order ethene 1 (mkBond 0 0 1 DOUBLE)
              (mkBond 0 0 1 DOUBLE) eq_refl) as (_ & Hone).
  split.
  - apply (Hthree 2%nat eq_refl). lia.
  - apply (Hone 2%nat eq_refl). lia.
Defined.

(** Deleting the bond of ethane leaves two carbons; one of them is kept. *)
Lemma removed_bond_action_is_one_fragment_witness :
  GetBondBetweenAtoms ethane 0 1 = Some (mkBond 0 0 1 SINGLE) /\
  list_index (Some SINGLE) bond_orders = Some 1%nat /\
  bond_removal_candidate ethane 1 (mkBond 0 0 1 SINGLE) = Ok (Some "C") /\
  contains_dot "C" = false.
Proof.
  split; [reflexivity|]. split; [reflexivity|].
  assert (Hc : bond_removal_candidate ethane 1 (mkBond 0 0 1 SINGLE)
               = Ok (Some "C")) by (by vm_compute).
  split; [exact Hc|].
  exact (proj1 (removed_bond_action_is_one_fragment ethane 1
                  (mkBond 0 0 1 SINGLE) (mkBond 0 0 1 SINGLE) "C"
                  eq_refl eq_refl Hc)).
Defined.

Lemma butane_bonds_found : bonds_found butane.
Proof.
  intros bond Hbond.
  assert (Hall : Forall (fun b =>
                   GetBondBetweenAtoms butane (GetBeginAtomIdx b)
                     (GetEndAtomIdx b) <> None) (GetBonds butane))
    by evaluated.
  rewrite Forall_forall in Hall. by apply Hall.
Defined.

Lemma bond_removal_returns_witness :
  bonds_found butane /\ exists R, _bond_removal butane = Ok R.
Proof.
  split; [exact butane_bonds_found|].
  exact (bond_removal_returns butane butane_bonds_found).
Defined.

Lemma bond_addition_returns_witness :
  (4 <= 4)%nat /\
  exists R, _bond_addition butane (free_valence_map butane 4) None true = Ok R.
Proof.
  split; [lia|].
  apply (bond_addition_returns butane 4 None true). lia.
Defined.

Lemma ethane_bonds_found : bonds_found ethane.
Proof.
  intros bond Hbond.
  assert (Hall : Forall (fun b =>
                   GetBondBetweenAtoms ethane (GetBeginAtomIdx b)
                     (GetEndAtomIdx b) <> None) (GetBonds ethane))
    by evaluated.
  rewrite Forall_forall in Hall. by apply Hall.
Defined.

Lemma get_valid_actions_returns_witness :
  "CC" <> EmptyString /\
  MolFromSmiles "CC" = Some ethane /\
  max_valence_of {[ "C"; "N"; "O" ]} = Ok 4%nat /\
  (true = true -> bonds_found ethane) /\
  exists R,
    get_valid_actions (Some "CC") {[ "C"; "N"; "O" ]} true true None true
    = Ok R /\
    (true = true -> MolToSmiles ethane ∈ R).
Proof.
  assert (Hmax : max_valence_of ({[ "C"; "N"; "O" ]} : gset string) = Ok 4%nat)
    by (by vm_compute).
  split; [discriminate|]. split; [reflexivity|]. split; [exact Hmax|].
  split; [intros _; exact ethane_bonds_found|].
  apply (get_valid_actions_returns "CC" ethane {[ "C"; "N"; "O" ]}
           true true None true);
    [discriminate|reflexivity|exact Hmax|intros _; exact ethane_bonds_found].
Defined.

Lemma every_action_is_sanitized_witness :
  "CC" <> EmptyString /\
  MolFromSmiles "CC" = Some ethane /\
  get_valid_actions (Some "CC") {[ "C"; "N"; "O" ]} true true None true
  = Ok actions_of_ethane /\
  ("C" ∈ actions_of_ethane) /\
  ((true = true /\ "C" = MolToSmiles ethane) \/
   exists candidate new_state,
     SanitizeMol candidate = Some new_state /\
     ("C" = MolToSmiles new_state \/
      (true = true /\ "C" ∈ split_dot (MolToSmiles new_state)))).
Proof.
  assert (HR : get_valid_actions (Some "CC") {[ "C"; "N"; "O" ]}
                 true true None true = Ok actions_of_ethane)
    by (by vm_compute).
  assert (Hin : "C" ∈ actions_of_ethane) by evaluated.
  split; [discriminate|]. split; [reflexivity|]. split; [exact HR|].
  split; [exact Hin|].
  apply (every_action_is_sanitized "CC" ethane {[ "C"; "N"; "O" ]}
           true true None true actions_of_ethane);
    [discriminate|reflexivity|exact HR|exact Hin].
Defined.

Lemma bond_addition_pairs_witness :
  NoDup (GetAtoms butane) /\
  ((1%nat, [0%nat; 1%nat; 2%nat; 3%nat]) ∈ free_valence_map butane 4) /\
  (0%nat, 3%nat) ∈ combinations2 [0%nat; 1%nat; 2%nat; 3%nat].
Proof.
  assert (Hnd : NoDup (GetAtoms butane)) by evaluated.
  assert (Hlevel : (1%nat, [0%nat; 1%nat; 2%nat; 3%nat])
                   ∈ free_valence_map butane 4) by evaluated.
  split; [exact Hnd|]. split; [exact Hlevel|].
  destruct (bond_addition_pairs butane 4 1 [0%nat; 1%nat; 2%nat; 3%nat]
              Hnd Hlevel) as [_ Hcover].
  destruct (Hcover 0%nat 3%nat) as [Hpair|Hpair];
    [evaluated|evaluated|lia|vm_compute; lia|vm_compute; lia|exact Hpair|].
  exfalso. revert Hpair. evaluated.
Defined.

Lemma path_untouched_without_recording_witness :
  Molecule.record_path env_cno_unrecorded = false /\
  Molecule.get_path
    (run_any [CallOther (CallStep "C"); CallInitialize;
              CallOther (CallStep "N")] env_cno_unrecorded) = [].
Proof.
  split; [reflexivity|].
  exact (path_untouched_without_recording
           [CallOther (CallStep "C"); CallInitialize; CallOther (CallStep "N")]
           env_cno_unrecorded eq_refl).
Defined.

Lemma get_valid_actions_writes_cache_only_witness :
  Molecule.get_valid_actions (Molecule.PyStr "C") false env_cno_started
  = (Molecule.set_valid_actions actions_of_methane env_cno_started,
     Ok actions_of_methane) /\
  Molecule.set_valid_actions actions_of_methane env_cno_started
  = Molecule.set_valid_actions actions_of_methane env_cno_started.
Proof.
  assert (Hcall : Molecule.get_valid_actions (Molecule.PyStr "C") false
                    env_cno_started
                  = (Molecule.set_valid_actions actions_of_methane
                       env_cno_started, Ok actions_of_methane))
    by (by vm_compute).
  split; [exact Hcall|].
  exact (get_valid_actions_writes_cache_only env_cno_started _
           (Molecule.PyStr "C") false (Ok actions_of_methane) Hcall).
Defined.

Lemma initialize_resets_witness :
  enumerate env_cno_after (Molecule.init_mol env_cno_after)
  = Ok {[ "C"; "N"; "O" ]} /\
  Molecule.num_steps_taken env_cno_after = 2 /\
  exists self',
    Molecule.initialize env_cno_after = (self', Ok tt) /\
    Molecule.state self' = None /\
    Molecule.num_steps_taken self' = 0 /\
    Molecule.get_path self' = [None].
Proof.
  split; [reflexivity|]. split; [by vm_compute|].
  destruct (initialize_resets env_cno_after {[ "C"; "N"; "O" ]} eq_refl)
    as (self' & Hinit & Hstate & Hcount & _ & Hpath & _).
  exists self'. split; [exact Hinit|]. split; [exact Hstate|].
  split; [exact Hcount|exact Hpath].
Defined.

Lemma initialize_failure_witness :
  enumerate env_unparsable (Molecule.init_mol env_unparsable)
  = Raise (TypeError "unsupported operand type(s) for &: 'str' and 'str'") /\
  (Molecule.max_steps env_unparsable
   <= Molecule.num_steps_taken env_unparsable) /\
  exists self',
    Molecule.initialize env_unparsable
    = (self', Raise (TypeError "unsupported operand type(s) for &: 'str' and 'str'")) /\
    Molecule.num_steps_taken self' = 3 /\
    Molecule.step "C" self' = (self', Raise EpisodeTerminatedError).
Proof.
  assert (Hle : Molecule.max_steps env_unparsable
                <= Molecule.num_steps_taken env_unparsable)
    by (vm_compute; discriminate).
  assert (Hen : enumerate env_unparsable (Molecule.init_mol env_unparsable)
                = Raise (TypeError
                           "unsupported operand type(s) for &: 'str' and 'str'"))
    by (by vm_compute).
  split; [exact Hen|]. split; [exact Hle|].
  destruct (initialize_failure env_unparsable _ Hen)
    as (self' & Hinit & _ & Hcount & _ & _ & Hstep).
  exists self'. split; [exact Hinit|]. split; [exact Hcount|].
  exact (Hstep Hle "C").
Defined.

Lemma cache_follows_state_witness :
  Molecule.initialize env_cno = (env_cno_started, Ok tt) /\
  steps ["C"; "CC"] env_cno_started = Some env_cno_after /\
  enumerate env_cno_after (Some "CC") = Ok (Molecule._valid_actions env_cno_after).
Proof.
  assert (Hinit : Molecule.initialize env_cno = (env_cno_started, Ok tt))
    by (by vm_compute).
  assert (Hsteps : steps ["C"; "CC"] env_cno_started = Some env_cno_after)
    by (by vm_compute).
  split; [exact Hinit|]. split; [exact Hsteps|].
  exact (proj1 (cache_follows_state env_cno env_cno_started env_cno_after
                  ["C"; "CC"] Hinit Hsteps)).
Defined.


End FurtherExamples.
